(** * Data pipeline of [dashboard_interactif_final.py]

    The script reads three tables (sales, geographic sales, customer
    feedback) and derives five chart sources from them with pandas:
    [daily_sales], [category_sales], [heatmap_source], the re-projected
    [geo_data] and [sentiment_counts].  This development embeds those
    derivations and proves the properties stated for them.

    Conventions of the embedding:
    - a pandas table is the list of its rows, in row order;
    - a timestamp is its number of nanoseconds since 1970-01-01T00:00;
    - a sentiment score is a binary64 value ([spec_float]), because the
      classifier only compares it and comparisons are exact, NaN included;
    - the sales column is embedded twice.  [SalesRow] holds the amount in the
      type of the column, float64 or int64, and the grouped sums over it add
      as pandas does, rounding or wrapping: the statements about the totals
      of [daily_sales] and [category_sales] are made there.  [SalesRecord]
      holds the amount as an exact rational, with [None] for a missing value
      (NaN) in the heat map: the statements about the cells of the heat map,
      their layout and their missing values are made there, and its totals
      are those of the script as long as no addition rounds or wraps. *)

From Stdlib Require Import ZArith QArith Qabs Qminmax List String Bool Lia.
From Stdlib Require Import Permutation Sorted.
From Stdlib Require Import Floats.SpecFloat.
From Stdlib Require Import Reals Qreals Lra.
Import ListNotations.
Open Scope string_scope.
Open Scope Z_scope.

(** ** Sentiment scores: binary64 values *)

Definition float64 := spec_float.

(** [0.7]: the binary64 closest to 7/10, 0x1.6666666666666p-1. *)
Definition f0_7 : float64 := S754_finite false 6305039478318694 (-53).
(** [0.3]: the binary64 closest to 3/10, 0x1.3333333333333p-2. *)
Definition f0_3 : float64 := S754_finite false 5404319552844595 (-54).

(** The other literals of the boundary examples, and two scores outside
    [0, 1]. *)
Definition f0_70001 : float64 := S754_finite false 6305129550311242 (-53).
Definition f0_29999 : float64 := S754_finite false 5404139408859500 (-54).
Definition f0_9 : float64 := S754_finite false 8106479329266893 (-53).
Definition f0_5 : float64 := S754_finite false 4503599627370496 (-53).
Definition f0_1 : float64 := S754_finite false 7205759403792794 (-56).
Definition f1_5 : float64 := S754_finite false 6755399441055744 (-52).
Definition fminus2 : float64 := S754_finite true 4503599627370496 (-51).

(** Python's [a > b], [a <= b] on floats. *)
Definition fgt (a b : float64) : bool := SFltb b a.
Definition fle (a b : float64) : bool := SFleb a b.
Definition flt (a b : float64) : bool := SFltb a b.

(** The rational a finite binary64 stands for (0 for the others). *)
Definition float_value (x : float64) : Q :=
  match x with
  | S754_finite s m e =>
      let mag := if (0 <=? e)%Z then inject_Z (Z.pos m * 2 ^ e)
                 else Z.pos m # Pos.pow 2 (Z.to_pos (- e)) in
      if s then Qopp mag else mag
  | _ => 0%Q
  end.

(** [x] is the binary64 a decimal literal [q] denotes: a 53-bit mantissa
    within half a unit in the last place of [q]. *)
Definition is_double_of (q : Q) (x : float64) : bool :=
  match x with
  | S754_finite _ m e =>
      (2 ^ 52 <=? Z.pos m)%Z && (Z.pos m <? 2 ^ 53)%Z && (e <? 0)%Z &&
      Qle_bool (Qabs (float_value x - q)) (1 # Pos.pow 2 (Z.to_pos (1 - e)))
  | _ => false
  end.

(** ** Part 5: sentiment analysis *)

Record FeedbackRecord := {
  fb_date : Z;
  fb_category : string;
  rating : Z;
  sentiment_score : float64
}.

Definition categorize_sentiment (score : float64) : string :=
  if fgt score f0_7 then "Positive"
  else if fle f0_3 score && fle score f0_7 then "Neutral"
  else "Negative".

(** [Series.value_counts()]: the distinct values are collected in order of
    first appearance with their number of occurrences, then ordered by
    decreasing count (values of equal count keep their order). *)
Fixpoint bump (v : string) (t : list (string * nat)) : list (string * nat) :=
  match t with
  | [] => [(v, 1%nat)]
  | (k, c) :: t' => if String.eqb k v then (k, S c) :: t' else (k, c) :: bump v t'
  end.

Definition tally (vs : list string) : list (string * nat) :=
  fold_left (fun t v => bump v t) vs [].

Fixpoint insert_desc (e : string * nat) (t : list (string * nat)) :=
  match t with
  | [] => [e]
  | h :: t' => if (snd h <=? snd e)%nat then e :: h :: t' else h :: insert_desc e t'
  end.

Definition sort_desc (t : list (string * nat)) : list (string * nat) :=
  fold_right insert_desc [] t.

Definition value_counts (vs : list string) : list (string * nat) :=
  sort_desc (tally vs).

(** [customer_feedback['Sentiment']] and [sentiment_counts]. *)
Definition Sentiment (customer_feedback : list FeedbackRecord) : list string :=
  map (fun r => categorize_sentiment (sentiment_score r)) customer_feedback.

Definition sentiment_counts (customer_feedback : list FeedbackRecord)
  : list (string * nat) :=
  value_counts (Sentiment customer_feedback).

(** ** The sales table *)

Record SalesRecord := {
  date : Z;
  category : string;
  sales : Q
}.

Definition ns_per_day : Z := 86400000000000.

(** Days from 1970-01-01 to the Gregorian date [y]-[m]-[d]. *)
Definition days_from_civil (y m d : Z) : Z :=
  let y' := if m <=? 2 then y - 1 else y in
  let era := y' / 400 in
  let yoe := y' - era * 400 in
  let mp := (m + 9) mod 12 in
  let doy := (153 * mp + 2) / 5 + d - 1 in
  let doe := yoe * 365 + yoe / 4 - yoe / 100 + doy in
  era * 146097 + doe - 719468.

(** [pd.to_datetime] of a date without time of day. *)
Definition to_datetime (y m d : Z) : Z := days_from_civil y m d * ns_per_day.

Definition days_order : list string :=
  ["Monday"; "Tuesday"; "Wednesday"; "Thursday"; "Friday"; "Saturday"; "Sunday"].

(** [Series.dt.day_name()]; 1970-01-01 was a Thursday. *)
Definition day_name (ts : Z) : string :=
  nth (Z.to_nat ((ts / ns_per_day + 3) mod 7)) days_order "".

(** The column [sales_data['day_of_week']]. *)
Definition day_of_week (r : SalesRecord) : string := day_name (date r).

(** ** Group keys and [groupby(...)['sales'].sum()] *)

Class Key (K : Type) := key_cmp : K -> K -> comparison.

#[export] Instance Z_key : Key Z := Z.compare.
#[export] Instance string_key : Key string := String.compare.
#[export] Instance pair_key {A B : Type} `{Key A} `{Key B} : Key (A * B) :=
  fun x y =>
    match key_cmp (fst x) (fst y) with
    | Eq => key_cmp (snd x) (snd y)
    | c => c
    end.

Definition key_eqb {K : Type} `{Key K} (a b : K) : bool :=
  match key_cmp a b with Eq => true | _ => false end.

(** One row is added to the running totals, which are kept in increasing
    key order (pandas groups with [sort=True]); the amounts are added
    exactly here, and in the arithmetic of the column in [group_states]. *)
Fixpoint accumulate {K : Type} `{Key K} (k : K) (v : Q) (acc : list (K * Q))
  : list (K * Q) :=
  match acc with
  | [] => [(k, v)]
  | (k', t) :: rest =>
      match key_cmp k k' with
      | Lt => (k, v) :: acc
      | Eq => (k', (t + v)%Q) :: rest
      | Gt => (k', t) :: accumulate k v rest
      end
  end.

Definition groupby_sum {K : Type} `{Key K} (key : SalesRecord -> K)
  (rows : list SalesRecord) : list (K * Q) :=
  fold_left (fun acc r => accumulate (key r) (sales r) acc) rows [].

(** ** Part 1 and part 2: daily and per-category sales *)

Definition daily_sales (sales_data : list SalesRecord) : list (Z * Q) :=
  groupby_sum date sales_data.

Definition category_sales (sales_data : list SalesRecord) : list (string * Q) :=
  groupby_sum category sales_data.

(** ** Part 3: the heat map *)

Definition heatmap_data (sales_data : list SalesRecord)
  : list ((string * string) * Q) :=
  groupby_sum (fun r => (day_of_week r, category r)) sales_data.

(** A frame of numbers with row labels [index] and column labels [columns];
    [values] holds one list per row. *)
Record DataFrame := {
  index : list string;
  columns : list string;
  values : list (list (option Q))
}.

Fixpoint add_key {K : Type} `{Key K} (k : K) (s : list K) : list K :=
  match s with
  | [] => [k]
  | k' :: rest =>
      match key_cmp k k' with
      | Lt => k :: s
      | Eq => s
      | Gt => k' :: add_key k rest
      end
  end.

Definition sorted_unique {K : Type} `{Key K} (l : list K) : list K :=
  fold_left (fun s k => add_key k s) l [].

Definition lookup {K V : Type} `{Key K} (k : K) (m : list (K * V)) : option V :=
  option_map snd (find (fun e => key_eqb (fst e) k) m).

(** [DataFrame.pivot(index=.., columns=.., values=..)]: a cell without an
    entry is missing. *)
Definition pivot (data : list ((string * string) * Q)) : DataFrame :=
  let idx := sorted_unique (map (fun e => fst (fst e)) data) in
  let cols := sorted_unique (map (fun e => snd (fst e)) data) in
  {| index := idx;
     columns := cols;
     values := map (fun i => map (fun c => lookup (i, c) data) cols) idx |}.

Definition fill_value (v : Q) (x : option Q) : option Q :=
  match x with
  | None => Some v
  | Some _ => x
  end.

Definition fillna (v : Q) (df : DataFrame) : DataFrame :=
  {| index := index df;
     columns := columns df;
     values := map (map (fill_value v)) (values df) |}.

(** [DataFrame.reindex(labels)]: the rows in the order of [labels]; a label
    that is not in the index gives a row of missing values. *)
Definition reindex (labels : list string) (df : DataFrame) : DataFrame :=
  {| index := labels;
     columns := columns df;
     values := map (fun l =>
                 match lookup l (combine (index df) (values df)) with
                 | Some row => row
                 | None => repeat None (List.length (columns df))
                 end) labels |}.

Definition heatmap_pivot (sales_data : list SalesRecord) : DataFrame :=
  reindex days_order (fillna 0 (pivot (heatmap_data sales_data))).

Record HeatmapCell := {
  cell_day_of_week : string;
  cell_category : string;
  cell_sales : option Q
}.

(** [df.reset_index().melt(id_vars='day_of_week', ...)]: one output row per
    cell, column after column. *)
Definition melt (df : DataFrame) : list HeatmapCell :=
  flat_map (fun jc =>
      map (fun irow =>
             {| cell_day_of_week := fst irow;
                cell_category := snd jc;
                cell_sales := nth (fst jc) (snd irow) None |})
          (combine (index df) (values df)))
    (combine (seq 0 (List.length (columns df))) (columns df)).

Definition heatmap_source (sales_data : list SalesRecord) : list HeatmapCell :=
  melt (heatmap_pivot sales_data).

(** Sums: of a list of amounts, and of values some of which are missing
    (a missing value makes the sum missing, as NaN does). *)
Definition Qsum (l : list Q) : Q := fold_right Qplus 0%Q l.

Fixpoint nan_sum (l : list (option Q)) : option Q :=
  match l with
  | [] => Some 0%Q
  | None :: _ => None
  | Some v :: rest =>
      match nan_sum rest with
      | Some t => Some (v + t)%Q
      | None => None
      end
  end.

(** ** Re-projection of the geographic table *)

Record GeoRecord := {
  latitude : Q;
  longitude : Q;
  region : string;
  geo_sales : Q
}.

Record ProjectedPoint (C : Type) := {
  pp_latitude : Q;
  pp_longitude : Q;
  pp_region : string;
  pp_sales : Q;
  mercator_x : C;
  mercator_y : C
}.
Arguments pp_latitude {C} _.
Arguments pp_longitude {C} _.
Arguments pp_region {C} _.
Arguments pp_sales {C} _.
Arguments mercator_x {C} _.
Arguments mercator_y {C} _.

(** Unpacking into exactly two targets, [a, b = ...]; any other number of
    items raises [ValueError]. *)
Definition unpack2 {X : Type} (items : list X) : option (X * X) :=
  match items with
  | [a; b] => Some (a, b)
  | _ => None
  end.

Section Reprojector.
(** [transformer.transform] of pyproj, from (longitude, latitude) in
    degrees to a pair of plane coordinates of some type [C]. *)
Context {C : Type} (transform : Q -> Q -> C * C).

(** [geo_data.apply(lambda row: ..., axis=1)]: one pair per row. *)
Definition apply_transform (geo_data : list GeoRecord) : list (C * C) :=
  map (fun row => transform (longitude row) (latitude row)) geo_data.

(** [zip( *pairs )]: the tuple of first components and the tuple of second
    components; nothing at all when there is no pair. *)
Definition zip_star (pairs : list (C * C)) : list (list C) :=
  match pairs with
  | [] => []
  | _ => [map fst pairs; map snd pairs]
  end.

(** The two new columns are attached to the rows. *)
Definition set_columns (geo_data : list GeoRecord) (xs ys : list C)
  : list (ProjectedPoint C) :=
  map (fun gxy =>
         {| pp_latitude := latitude (fst gxy);
            pp_longitude := longitude (fst gxy);
            pp_region := region (fst gxy);
            pp_sales := geo_sales (fst gxy);
            mercator_x := fst (snd gxy);
            mercator_y := snd (snd gxy) |})
      (combine geo_data (combine xs ys)).

(** Lines 44-47 of the script; [None] is the [ValueError] of the
    unpacking. *)
Definition reproject (geo_data : list GeoRecord)
  : option (list (ProjectedPoint C)) :=
  match unpack2 (zip_star (apply_transform geo_data)) with
  | Some (xs, ys) => Some (set_columns geo_data xs ys)
  | None => None
  end.

(** What a row becomes. *)
Definition project_row (row : GeoRecord) : ProjectedPoint C :=
  {| pp_latitude := latitude row;
     pp_longitude := longitude row;
     pp_region := region row;
     pp_sales := geo_sales row;
     mercator_x := fst (transform (longitude row) (latitude row));
     mercator_y := snd (transform (longitude row) (latitude row)) |}.

End Reprojector.

(** ** The projection itself *)

(** A coordinate the formulas give, or none where they give none. *)
Inductive coord :=
| Finite (v : R)
| Undefined.

Definition is_defined (c : coord) : bool :=
  match c with Finite _ => true | Undefined => false end.

Definition earth_radius : R := 6378137.

Definition radians (degrees : Q) : R := (Q2R degrees * PI / 180)%R.

Definition mercator_forward_x (lon : Q) : R := (earth_radius * radians lon)%R.

Definition mercator_forward_y (lat : Q) : R :=
  (earth_radius * ln (tan (PI / 4 + radians lat / 2)))%R.

(** Modelled from the spec: the transformer from EPSG:4326 to EPSG:3857 is
    pyproj's and is not part of the repository.  These are the spherical
    Mercator forward formulas of the specification, x = R * lambda and
    y = R * ln(tan(pi/4 + phi/2)), for a latitude strictly between -90 and
    90.  At the poles and beyond the formula for y gives no number (the
    tangent term diverges or is not positive) and the model gives none
    either; what pyproj returns there is not modelled. *)
Definition web_mercator (lon lat : Q) : coord * coord :=
  (Finite (mercator_forward_x lon),
   if Qle_bool 90 lat then Undefined
   else if Qle_bool lat (-90) then Undefined
   else Finite (mercator_forward_y lat)).

(** ** Vocabulary of the statements *)

(** The count a histogram gives a label (0 when it has no row for it). *)
Definition count_of (l : string) (t : list (string * nat)) : nat :=
  match find (fun e => String.eqb (fst e) l) t with
  | Some e => snd e
  | None => 0%nat
  end.

(** What makes a comparison a strict total order on the keys. *)
Class KeyLaws (K : Type) `{Key K} := {
  key_cmp_eq : forall a b : K, key_cmp a b = Eq <-> a = b;
  key_cmp_antisym : forall a b : K, key_cmp b a = CompOpp (key_cmp a b);
  key_cmp_trans : forall a b c : K,
    key_cmp a b = Lt -> key_cmp b c = Lt -> key_cmp a c = Lt
}.

Definition key_lt {K : Type} `{Key K} (a b : K) : Prop := key_cmp a b = Lt.

(** The total a grouped table gives a key: the sum over its rows for that
    key. *)
Definition group_total {K : Type} `{Key K} (k : K) (m : list (K * Q)) : Q :=
  Qsum (map snd (filter (fun e => key_eqb (fst e) k) m)).

(** The sales of the input rows that have key [k]. *)
Definition sales_of {K : Type} `{Key K} (key : SalesRecord -> K) (k : K)
  (rows : list SalesRecord) : Q :=
  Qsum (map sales (filter (fun r => key_eqb (key r) k) rows)).

(** The sales rows of the scenario: (2024-01-01, A, 100), (2024-01-01, B, 50),
    (2024-01-02, A, 30). *)
Definition scenario_sales : list SalesRecord :=
  [ {| date := to_datetime 2024 1 1; category := "A"; sales := 100 |};
    {| date := to_datetime 2024 1 1; category := "B"; sales := 50 |};
    {| date := to_datetime 2024 1 2; category := "A"; sales := 30 |} ].

(** A geographic row at the north pole, one at the origin, and a transformer
    that hands back the coordinates it is given. *)
Definition north_pole : GeoRecord :=
  {| latitude := 90; longitude := 0; region := "North Pole"; geo_sales := 1 |}.

Definition null_island : GeoRecord :=
  {| latitude := 0; longitude := 0; region := "Null Island"; geo_sales := 1 |}.

Definition echo (lon lat : Q) : Q * Q := (lon, lat).

(** A sales table with a single row, on Monday 2024-01-01. *)
Definition monday_only : list SalesRecord :=
  [ {| date := to_datetime 2024 1 1; category := "A"; sales := 100 |} ].

(** Membership in a list of keys. *)
Definition mem {K : Type} `{Key K} (k : K) (l : list K) : bool :=
  existsb (fun x => key_eqb x k) l.

(** The (weekday, category) pairs of the heat map, column after column. *)
Definition grid (cols : list string) : list (string * string) :=
  flat_map (fun c => map (fun d => (d, c)) days_order) cols.

Definition heatmap_columns (sales_data : list SalesRecord) : list string :=
  columns (heatmap_pivot sales_data).

(** The value the heat map holds for weekday [d] and category [c]. *)
Definition pivot_cell (sales_data : list SalesRecord) (d c : string) : option Q :=
  if mem d (index (pivot (heatmap_data sales_data)))
  then fill_value 0 (lookup (d, c) (heatmap_data sales_data))
  else None.

Definition cell_of (sales_data : list SalesRecord) (k : string * string)
  : HeatmapCell :=
  {| cell_day_of_week := fst k;
     cell_category := snd k;
     cell_sales := pivot_cell sales_data (fst k) (snd k) |}.

(** [Series.sum()] of pandas: missing values are skipped. *)
Definition skipna_sum (l : list (option Q)) : Q :=
  Qsum (map (fun x => match x with Some v => v | None => 0%Q end) l).

(** The labels in increasing order of sentiment. *)
Definition label_rank (l : string) : nat :=
  if String.eqb l "Positive" then 2
  else if String.eqb l "Neutral" then 1
  else 0.

(** ** The ranges of the figures *)





(** A sales table with one row on each day of the week of 2024-01-01. *)
Definition full_week : list SalesRecord :=
  map (fun d => {| date := to_datetime 2024 1 d; category := "A";
                   sales := inject_Z d |})
      [1; 2; 3; 4; 5; 6; 7].

(** ** Start of the script: the three files and their columns *)

Inductive startup_error :=
| FileNotFoundError (file : string)
| ValueError (file : string).

Definition sales_file : string := "sales_data.csv".
Definition geo_file : string := "geographic_data.csv".
Definition feedback_file : string := "customer_feedback.csv".

Definition required_columns_sales : list string :=
  ["date"; "category"; "sales"].
Definition required_columns_geo : list string :=
  ["latitude"; "longitude"; "region"; "sales"].
Definition required_columns_feedback : list string :=
  ["date"; "category"; "rating"; "sentiment_score"].

(** [required.issubset(columns)]. *)
Definition issubset (required cols : list string) : bool :=
  forallb (fun c => existsb (String.eqb c) cols) required.

(** A step that may raise, and the sequencing of such steps. *)
Definition raising (A : Type) : Type := (startup_error + A)%type.

Definition bind {A B : Type} (m : raising A) (k : A -> raising B) : raising B :=
  match m with
  | inl e => inl e
  | inr a => k a
  end.

(** [if not ok: raise e]. *)
Definition unless_raise (ok : bool) (e : startup_error) : raising unit :=
  if ok then inr tt else inl e.

Section Startup.
(** The working directory: for a file that is there, the column names of the
    table [pd.read_csv] makes of it (a file that is there but is not a
    readable CSV table is not modelled). *)
Context (directory : string -> option (list string)).

(** [os.path.exists(file)]. *)
Definition path_exists (file : string) : bool :=
  match directory file with
  | Some _ => true
  | None => false
  end.

(** The columns of [pd.read_csv(file)]. *)
Definition read_csv (file : string) : raising (list string) :=
  match directory file with
  | Some cols => inr cols
  | None => inl (FileNotFoundError file)
  end.

(** Lines 12-36: the three existence checks, the three reads, the three
    column checks, in this order. *)
Definition startup : raising unit :=
  bind (unless_raise (path_exists sales_file) (FileNotFoundError sales_file))
  (fun _ =>
  bind (unless_raise (path_exists geo_file) (FileNotFoundError geo_file))
  (fun _ =>
  bind (unless_raise (path_exists feedback_file)
                     (FileNotFoundError feedback_file))
  (fun _ =>
  bind (read_csv sales_file) (fun sales_columns =>
  bind (read_csv geo_file) (fun geo_columns =>
  bind (read_csv feedback_file) (fun feedback_columns =>
  bind (unless_raise (issubset required_columns_sales sales_columns)
                     (ValueError sales_file))
  (fun _ =>
  bind (unless_raise (issubset required_columns_geo geo_columns)
                     (ValueError geo_file))
  (fun _ =>
  unless_raise (issubset required_columns_feedback feedback_columns)
               (ValueError feedback_file))))))))).
End Startup.

(** Two directories: one where only the sales file is there and has no
    column, one with the three files and more columns than required. *)
Definition sales_only (file : string) : option (list string) :=
  if String.eqb file sales_file then Some [] else None.

Definition complete_directory (file : string) : option (list string) :=
  if String.eqb file sales_file then Some ["id"; "sales"; "date"; "category"]
  else if String.eqb file geo_file
       then Some ["region"; "latitude"; "longitude"; "sales"]
  else if String.eqb file feedback_file
       then Some ["date"; "category"; "rating"; "sentiment_score"; "comment"]
  else None.

(** The three files are there, the sales table lacks a column. *)
Definition incomplete_sales (file : string) : option (list string) :=
  if String.eqb file sales_file then Some ["date"; "sales"]
  else complete_directory file.

(** ** The sales column as pandas holds it *)

(** [pd.read_csv] gives the [sales] column the type float64, or int64 when
    every value of the file is written as an integer, and
    [groupby(...)['sales'].sum()] adds in the arithmetic of that type:
    binary64 operations rounded to the nearest value (ties to even), or
    64-bit integers that wrap around. *)
Definition fzero : float64 := S754_zero false.
Definition fadd (a b : float64) : float64 := SFadd 53 1024 a b.
Definition fsub (a b : float64) : float64 := SFsub 53 1024 a b.

Definition is_nan (x : float64) : bool :=
  match x with
  | S754_nan => true
  | _ => false
  end.

Definition wrap64 (z : Z) : Z :=
  (z + 9223372036854775808) mod 18446744073709551616 - 9223372036854775808.

(** A row of the sales table with its amount in the column's type. *)
Record SalesRow (V : Type) := {
  row_date : Z;
  row_category : string;
  row_sales : V
}.
Arguments row_date {V} _.
Arguments row_category {V} _.
Arguments row_sales {V} _.

Section GroupSum.
(** The grouped sum of pandas goes once through the rows and keeps one
    accumulator per group, started at [init] and moved by [step] at each row
    of the group; the groups come out in increasing key order. *)
Context {K : Type} `{Key K} {V S : Type} (init : S) (step : S -> V -> S).

Fixpoint accumulate_with (k : K) (v : V) (acc : list (K * S)) : list (K * S) :=
  match acc with
  | [] => [(k, step init v)]
  | (k', s) :: rest =>
      match key_cmp k k' with
      | Lt => (k, step init v) :: acc
      | Eq => (k', step s v) :: rest
      | Gt => (k', s) :: accumulate_with k v rest
      end
  end.

Definition group_states (key : SalesRow V -> K) (rows : list (SalesRow V))
  : list (K * S) :=
  fold_left (fun acc r => accumulate_with (key r) (row_sales r) acc) rows [].

(** The accumulator of the group [k]. *)
Definition state_of (k : K) (acc : list (K * S)) : S :=
  match lookup k acc with
  | Some s => s
  | None => init
  end.
End GroupSum.

(** float64: the running sum and its compensation (Kahan's summation, as in
    pandas' [group_sum]); a missing amount is skipped, and a compensation
    that is not a number is reset. *)
Definition kahan_step (s : float64 * float64) (v : float64) : float64 * float64 :=
  if is_nan v then s
  else
    let y := fsub v (snd s) in
    let t := fadd (fst s) y in
    let c := fsub (fsub t (fst s)) y in
    (t, if is_nan c then fzero else c).

Definition kahan_sum (vs : list float64) : float64 :=
  fst (fold_left kahan_step vs (fzero, fzero)).

(** int64: the sum modulo 2^64. *)
Definition int64_step (s v : Z) : Z := wrap64 (s + v).

Definition int64_sum (vs : list Z) : Z := fold_left int64_step vs 0.

Definition groupby_sum_float64 {K : Type} `{Key K}
  (key : SalesRow float64 -> K) (rows : list (SalesRow float64))
  : list (K * float64) :=
  map (fun e => (fst e, fst (snd e)))
      (group_states (fzero, fzero) kahan_step key rows).

Definition groupby_sum_int64 {K : Type} `{Key K}
  (key : SalesRow Z -> K) (rows : list (SalesRow Z)) : list (K * Z) :=
  group_states 0 int64_step key rows.

(** Lines 58 and 73 on a float64 column and on an int64 column. *)
Definition daily_sales_float64 (rows : list (SalesRow float64))
  : list (Z * float64) :=
  groupby_sum_float64 row_date rows.

Definition category_sales_float64 (rows : list (SalesRow float64))
  : list (string * float64) :=
  groupby_sum_float64 row_category rows.

Definition daily_sales_int64 (rows : list (SalesRow Z)) : list (Z * Z) :=
  groupby_sum_int64 row_date rows.

Definition category_sales_int64 (rows : list (SalesRow Z)) : list (string * Z) :=
  groupby_sum_int64 row_category rows.

(** The doubles of some amounts. *)
Definition f0_2 : float64 := S754_finite false 7205759403792794 (-55).
Definition f0_30000000000000004 : float64 :=
  S754_finite false 5404319552844596 (-54).
Definition f30 : float64 := S754_finite false 8444249301319680 (-48).
Definition f50 : float64 := S754_finite false 7036874417766400 (-47).
Definition f100 : float64 := S754_finite false 7036874417766400 (-46).
Definition f130 : float64 := S754_finite false 4573968371548160 (-45).
Definition f150 : float64 := S754_finite false 5277655813324800 (-45).
Definition f102_24 : float64 := S754_finite false 7194500404724367 (-46).
Definition f317_43 : float64 := S754_finite false 5584287616078971 (-44).
Definition f591_15 : float64 := S754_finite false 5199810390078259 (-43).
Definition f1010_82 : float64 := S754_finite false 8891266748708291 (-43).
Definition f1010_8199999999999 : float64 :=
  S754_finite false 8891266748708290 (-43).

(** The scenario with its amounts as a float64 column and as an int64
    column. *)
Definition scenario_float64 : list (SalesRow float64) :=
  [ {| row_date := to_datetime 2024 1 1; row_category := "A"; row_sales := f100 |};
    {| row_date := to_datetime 2024 1 1; row_category := "B"; row_sales := f50 |};
    {| row_date := to_datetime 2024 1 2; row_category := "A"; row_sales := f30 |} ].

Definition scenario_int64 : list (SalesRow Z) :=
  [ {| row_date := to_datetime 2024 1 1; row_category := "A"; row_sales := 100 |};
    {| row_date := to_datetime 2024 1 1; row_category := "B"; row_sales := 50 |};
    {| row_date := to_datetime 2024 1 2; row_category := "A"; row_sales := 30 |} ].

(** Two sales of 0.1 and 0.2 on the same day, in the same category. *)
Definition two_tenths : list (SalesRow float64) :=
  [ {| row_date := to_datetime 2024 1 1; row_category := "A"; row_sales := f0_1 |};
    {| row_date := to_datetime 2024 1 1; row_category := "A"; row_sales := f0_2 |} ].

(** Three sales on the same day, in two orders. *)
Definition three_sales : list (SalesRow float64) :=
  [ {| row_date := to_datetime 2024 1 1; row_category := "A"; row_sales := f591_15 |};
    {| row_date := to_datetime 2024 1 1; row_category := "A"; row_sales := f102_24 |};
    {| row_date := to_datetime 2024 1 1; row_category := "A"; row_sales := f317_43 |} ].

Definition three_sales_reordered : list (SalesRow float64) :=
  [ {| row_date := to_datetime 2024 1 1; row_category := "A"; row_sales := f317_43 |};
    {| row_date := to_datetime 2024 1 1; row_category := "A"; row_sales := f591_15 |};
    {| row_date := to_datetime 2024 1 1; row_category := "A"; row_sales := f102_24 |} ].

(** Two sales of 2^62 on the same day, in an int64 column. *)
Definition two_large : list (SalesRow Z) :=
  [ {| row_date := to_datetime 2024 1 1; row_category := "A";
       row_sales := 4611686018427387904 |};
    {| row_date := to_datetime 2024 1 1; row_category := "A";
       row_sales := 4611686018427387904 |} ].

(** ** The colour mapper of the heat map *)

(** The least and the greatest of two cell values, NaN when one is NaN. *)
Definition nan_pick (pick : Q -> Q -> Q) (a b : option Q) : option Q :=
  match a, b with
  | Some x, Some y => Some (pick x y)
  | _, _ => None
  end.

(** [ndarray.min()] and [ndarray.max()] of numpy: [None] is the [ValueError]
    raised on an array without elements; the result is NaN as soon as one
    element is NaN. *)
Definition ndarray_reduce (pick : Q -> Q -> Q) (a : list (option Q))
  : option (option Q) :=
  match a with
  | [] => None
  | x :: rest => Some (fold_left (nan_pick pick) rest x)
  end.

Definition ndarray_min : list (option Q) -> option (option Q) :=
  ndarray_reduce Qmin.
Definition ndarray_max : list (option Q) -> option (option Q) :=
  ndarray_reduce Qmax.

Record ColorMapper := {
  low : option Q;
  high : option Q
}.

(** Lines 105-108: [low=heatmap_source.data['sales'].min()] and
    [high=heatmap_source.data['sales'].max()]. *)
Definition mapper (sales_data : list SalesRecord) : option ColorMapper :=
  match ndarray_min (map cell_sales (heatmap_source sales_data)) with
  | None => None
  | Some lo =>
      match ndarray_max (map cell_sales (heatmap_source sales_data)) with
      | None => None
      | Some hi => Some {| low := lo; high := hi |}
      end
  end.

(** * Properties *)

(** ** Comparison of binary64 values *)

Lemma SFcompare_swap (a b : float64) :
  SFcompare b a = option_map CompOpp (SFcompare a b).
Proof.
  destruct a as [sa|sa| |sa ma ea], b as [sb|sb| |sb mb eb]; simpl;
    try reflexivity; try (destruct sa; reflexivity);
    try (destruct sb; reflexivity);
    try (destruct sa, sb; reflexivity).
  f_equal.
  rewrite (Z.compare_antisym ea eb).
  change (PosDef.Pos.compare_cont Eq mb ma) with (Pos.compare mb ma).
  change (PosDef.Pos.compare_cont Eq ma mb) with (Pos.compare ma mb).
  rewrite (Pos.compare_antisym ma mb).
  destruct sa, sb; try reflexivity;
    destruct (ea ?= eb)%Z; simpl; try reflexivity;
    destruct (ma ?= mb)%positive; reflexivity.
Qed.

Lemma fle_not_fgt (a b : float64) : fle a b = true -> fgt a b = false.
Proof.
  unfold fle, fgt, SFleb, SFltb. rewrite (SFcompare_swap a b).
  destruct (SFcompare a b) as [[ | | ]|]; simpl; congruence.
Qed.

Lemma flt_not_fle (a b : float64) : flt a b = true -> fle b a = false.
Proof.
  unfold fle, flt, SFleb, SFltb. rewrite (SFcompare_swap a b).
  destruct (SFcompare a b) as [[ | | ]|]; simpl; congruence.
Qed.

Lemma flt_0_3_not_fgt_0_7 (s : float64) : flt s f0_3 = true -> fgt s f0_7 = false.
Proof.
  unfold flt, fgt, SFltb, f0_3, f0_7.
  destruct s as [sg|sg| |sg m e]; cbv beta iota delta [SFcompare].
  - reflexivity.
  - destruct sg; [reflexivity | discriminate].
  - discriminate.
  - destruct sg; [reflexivity|].
    destruct (e ?= -54)%Z eqn:He; try discriminate; intros _.
    + apply Z.compare_eq in He. subst e. reflexivity.
    + rewrite Z.compare_lt_iff in He.
      assert (Hc : (-53 ?= e)%Z = Gt) by (apply Z.compare_gt_iff; lia).
      rewrite Hc. reflexivity.
Qed.

Lemma constants_are_the_literals :
  is_double_of (7 # 10) f0_7 = true /\ is_double_of (3 # 10) f0_3 = true /\
  is_double_of (70001 # 100000) f0_70001 = true /\
  is_double_of (29999 # 100000) f0_29999 = true /\
  is_double_of (9 # 10) f0_9 = true /\ is_double_of (5 # 10) f0_5 = true /\
  is_double_of (1 # 10) f0_1 = true /\ is_double_of (15 # 10) f1_5 = true /\
  Qeq_bool (float_value fminus2) (-2 # 1) = true.
Proof. repeat split; vm_compute; reflexivity. Qed.

(** ** The sentiment classifier *)

Lemma categorize_sentiment_label (s : float64) :
  In (categorize_sentiment s) ["Positive"; "Neutral"; "Negative"].
Proof.
  unfold categorize_sentiment.
  destruct (fgt s f0_7); [simpl; auto|].
  destruct (fle f0_3 s && fle s f0_7); simpl; auto.
Qed.

(** C1: a score above 0.7 is "Positive", a score from 0.3 to 0.7, both
    ends included, is "Neutral", a score below 0.3 is "Negative"; so
    classify(0.7) = "Neutral", classify(0.70001) = "Positive",
    classify(0.3) = "Neutral" and classify(0.29999) = "Negative". *)
Theorem categorize_sentiment_thresholds (s : float64) :
  (fgt s f0_7 = true -> categorize_sentiment s = "Positive") /\
  (fle f0_3 s = true -> fle s f0_7 = true -> categorize_sentiment s = "Neutral") /\
  (flt s f0_3 = true -> categorize_sentiment s = "Negative") /\
  categorize_sentiment f0_7 = "Neutral" /\
  categorize_sentiment f0_70001 = "Positive" /\
  categorize_sentiment f0_3 = "Neutral" /\
  categorize_sentiment f0_29999 = "Negative".
Proof.
  unfold categorize_sentiment. repeat split.
  - intros H. rewrite H. reflexivity.
  - intros Hlo Hhi. rewrite (fle_not_fgt _ _ Hhi), Hlo, Hhi. reflexivity.
  - intros H. rewrite (flt_0_3_not_fgt_0_7 _ H), (flt_not_fle _ _ H). reflexivity.
Qed.

Lemma categorize_sentiment_thresholds_witness :
  categorize_sentiment f0_9 = "Positive" /\
  categorize_sentiment f0_5 = "Neutral" /\
  categorize_sentiment f0_1 = "Negative".
Proof.
  split; [|split].
  - apply (proj1 (categorize_sentiment_thresholds f0_9)). reflexivity.
  - apply (proj1 (proj2 (categorize_sentiment_thresholds f0_5))); reflexivity.
  - apply (proj1 (proj2 (proj2 (categorize_sentiment_thresholds f0_1)))).
    reflexivity.
Defined.

(** C10: the classifier is total and its last branch is "Negative": a score
    for which [score > 0.7] and [0.3 <= score <= 0.7] are both false, NaN
    among them (every comparison with NaN is false), is "Negative"; every
    score, in range or not, gets one of the three labels. *)
Theorem categorize_sentiment_fallthrough (s : float64) :
  (fgt s f0_7 = false -> fle f0_3 s && fle s f0_7 = false ->
   categorize_sentiment s = "Negative") /\
  (fgt S754_nan s = false /\ fgt s S754_nan = false /\
   fle S754_nan s = false /\ fle s S754_nan = false) /\
  categorize_sentiment S754_nan = "Negative" /\
  In (categorize_sentiment s) ["Positive"; "Neutral"; "Negative"] /\
  (forall customer_feedback : list FeedbackRecord,
     List.length (Sentiment customer_feedback) = List.length customer_feedback /\
     Forall (fun l => In l ["Positive"; "Neutral"; "Negative"])
            (Sentiment customer_feedback)) /\
  categorize_sentiment f1_5 = "Positive" /\
  categorize_sentiment (S754_infinity false) = "Positive" /\
  categorize_sentiment fminus2 = "Negative" /\
  categorize_sentiment (S754_infinity true) = "Negative".
Proof.
  split; [|split; [|split; [|split; [|split]]]].
  - unfold categorize_sentiment. intros H1 H2. rewrite H1, H2. reflexivity.
  - unfold fgt, fle, SFltb, SFleb. rewrite (SFcompare_swap S754_nan s).
    repeat split; reflexivity.
  - reflexivity.
  - apply categorize_sentiment_label.
  - intros customer_feedback. unfold Sentiment. split; [apply length_map|].
    apply Forall_forall. intros l Hl. apply in_map_iff in Hl.
    destruct Hl as [r [<- _]]. apply categorize_sentiment_label.
  - repeat split.
Qed.

Lemma categorize_sentiment_fallthrough_witness :
  categorize_sentiment S754_nan = "Negative".
Proof.
  apply (proj1 (categorize_sentiment_fallthrough S754_nan)); reflexivity.
Defined.

(** ** The sentiment histogram *)

Lemma count_of_bump (l v : string) (t : list (string * nat)) :
  count_of l (bump v t) = (count_of l t + if String.eqb v l then 1 else 0)%nat.
Proof.
  unfold count_of.
  induction t as [|[k c] t IH]; simpl.
  - destruct (String.eqb v l); reflexivity.
  - destruct (String.eqb k v) eqn:Hkv; simpl.
    + apply String.eqb_eq in Hkv. subst k.
      destruct (String.eqb v l); simpl; lia.
    + destruct (String.eqb k l) eqn:Hkl; simpl.
      * apply String.eqb_eq in Hkl. subst k. rewrite String.eqb_sym, Hkv. lia.
      * exact IH.
Qed.

Lemma count_of_fold_bump (l : string) (vs : list string) :
  forall t, count_of l (fold_left (fun t v => bump v t) vs t)
            = (count_of l t + count_occ string_dec vs l)%nat.
Proof.
  induction vs as [|v vs IH]; intros t; simpl.
  - lia.
  - rewrite IH, count_of_bump.
    destruct (string_dec v l) as [->|Hne].
    + rewrite String.eqb_refl. lia.
    + apply String.eqb_neq in Hne. rewrite Hne. lia.
Qed.

Lemma bump_keys (v k : string) (t : list (string * nat)) :
  In k (map fst (bump v t)) -> k = v \/ In k (map fst t).
Proof.
  induction t as [|[k0 c] t IH]; simpl.
  - intros [H|[]]; auto.
  - destruct (String.eqb k0 v); simpl; intros [H|H]; auto.
    destruct (IH H); auto.
Qed.

Lemma bump_NoDup (v : string) (t : list (string * nat)) :
  NoDup (map fst t) -> NoDup (map fst (bump v t)).
Proof.
  induction t as [|[k c] t IH]; simpl; intros Hnd.
  - constructor; [intros []|constructor].
  - inversion Hnd as [|? ? Hnotin Hnd']; subst.
    destruct (String.eqb k v) eqn:Hkv; simpl.
    + constructor; assumption.
    + constructor; [|auto].
      intros Hin. apply bump_keys in Hin. destruct Hin as [->|Hin]; [|auto].
      rewrite String.eqb_refl in Hkv. discriminate.
Qed.

Lemma bump_positive (v : string) (t : list (string * nat)) :
  Forall (fun e => (0 < snd e)%nat) t -> Forall (fun e => (0 < snd e)%nat) (bump v t).
Proof.
  induction t as [|[k c] t IH]; simpl; intros Hp.
  - constructor; [simpl; lia|constructor].
  - inversion Hp; subst.
    destruct (String.eqb k v); constructor; simpl in *; auto; lia.
Qed.

Lemma tally_invariant (vs : list string) :
  forall t, NoDup (map fst t) -> Forall (fun e => (0 < snd e)%nat) t ->
    NoDup (map fst (fold_left (fun t v => bump v t) vs t)) /\
    Forall (fun e => (0 < snd e)%nat) (fold_left (fun t v => bump v t) vs t).
Proof.
  induction vs as [|v vs IH]; intros t Hnd Hp; simpl.
  - split; assumption.
  - apply IH; [apply bump_NoDup | apply bump_positive]; assumption.
Qed.

Lemma In_count_of (l : string) (c : nat) (t : list (string * nat)) :
  NoDup (map fst t) -> In (l, c) t -> count_of l t = c.
Proof.
  unfold count_of.
  induction t as [|[k c0] t IH]; simpl; intros Hnd Hin; [contradiction|].
  inversion Hnd as [|? ? Hnotin Hnd']; subst.
  destruct Hin as [Heq|Hin].
  - inversion Heq; subst. rewrite String.eqb_refl. reflexivity.
  - destruct (String.eqb k l) eqn:Hkl.
    + apply String.eqb_eq in Hkl. subst k. exfalso. apply Hnotin.
      change l with (fst (l, c)). apply in_map. exact Hin.
    + apply IH; assumption.
Qed.

Lemma count_of_In (l : string) (t : list (string * nat)) :
  (0 < count_of l t)%nat -> In (l, count_of l t) t.
Proof.
  unfold count_of.
  destruct (find (fun e => String.eqb (fst e) l) t) as [[k c]|] eqn:Hf; [|lia].
  intros _. apply find_some in Hf. destruct Hf as [Hin Heq].
  simpl in *. apply String.eqb_eq in Heq. subst k. exact Hin.
Qed.

Lemma insert_desc_perm (e : string * nat) (t : list (string * nat)) :
  Permutation (insert_desc e t) (e :: t).
Proof.
  induction t as [|h t IH]; simpl.
  - apply Permutation_refl.
  - destruct (snd h <=? snd e)%nat.
    + apply Permutation_refl.
    + eapply perm_trans; [apply perm_skip, IH | apply perm_swap].
Qed.

Lemma sort_desc_perm (t : list (string * nat)) : Permutation (sort_desc t) t.
Proof.
  induction t as [|e t IH]; simpl.
  - apply perm_nil.
  - eapply perm_trans; [apply insert_desc_perm | apply perm_skip, IH].
Qed.

Lemma value_counts_spec (vs : list string) :
  NoDup (map fst (value_counts vs)) /\
  forall l c, In (l, c) (value_counts vs)
              <-> c = count_occ string_dec vs l /\ (0 < c)%nat.
Proof.
  unfold value_counts.
  destruct (tally_invariant vs [] (NoDup_nil _) (Forall_nil _)) as [Hnd Hpos].
  fold (tally vs) in Hnd, Hpos.
  assert (Hcount : forall l, count_of l (tally vs) = count_occ string_dec vs l).
  { intros l. unfold tally. rewrite count_of_fold_bump. reflexivity. }
  split.
  - eapply Permutation_NoDup; [|exact Hnd].
    apply Permutation_map, Permutation_sym, sort_desc_perm.
  - intros l c. split.
    + intros Hin. apply (Permutation_in _ (sort_desc_perm _)) in Hin.
      split.
      * rewrite <- Hcount. symmetry. apply In_count_of; assumption.
      * rewrite Forall_forall in Hpos. apply (Hpos _ Hin).
    + intros [-> Hc]. apply (Permutation_in _ (Permutation_sym (sort_desc_perm _))).
      rewrite <- Hcount in *. apply count_of_In. exact Hc.
Qed.

(** C8: the histogram has one bucket per label that some feedback record is
    given, its count is the number of records given that label, and a label
    given to no record has no bucket (it is not listed with count 0). *)
Theorem sentiment_counts_buckets (customer_feedback : list FeedbackRecord) :
  let labels := Sentiment customer_feedback in
  let buckets := sentiment_counts customer_feedback in
  NoDup (map fst buckets) /\
  (forall l c, In (l, c) buckets
               <-> c = count_occ string_dec labels l /\ (0 < c)%nat) /\
  (forall l, In l (map fst buckets) <-> In l labels) /\
  (forall l, In l (map fst buckets) -> In l ["Positive"; "Neutral"; "Negative"]) /\
  (forall l, count_occ string_dec labels l = 0%nat -> ~ In l (map fst buckets)).
Proof.
  intros labels buckets.
  destruct (value_counts_spec labels) as [Hnd Hspec].
  fold (sentiment_counts customer_feedback) in Hspec, Hnd. fold buckets in Hspec, Hnd.
  assert (Hkeys : forall l, In l (map fst buckets) <-> In l labels).
  { intros l. rewrite (count_occ_In string_dec labels l). split.
    - intros Hin. apply in_map_iff in Hin. destruct Hin as [[k c] [<- Hin]].
      apply Hspec in Hin. simpl. lia.
    - intros Hc. apply in_map_iff. exists (l, count_occ string_dec labels l).
      split; [reflexivity|]. apply Hspec. split; [reflexivity | lia]. }
  split; [exact Hnd|]. split; [exact Hspec|]. split; [exact Hkeys|]. split.
  - intros l Hin. apply Hkeys in Hin. unfold labels, Sentiment in Hin.
    apply in_map_iff in Hin. destruct Hin as [r [<- _]].
    apply categorize_sentiment_label.
  - intros l Hz Hin. apply Hkeys in Hin.
    apply (count_occ_In string_dec) in Hin. lia.
Qed.

(** ** Keys *)

Lemma ascii_compare_refl (a : Ascii.ascii) : Ascii.compare a a = Eq.
Proof. unfold Ascii.compare. apply N.compare_refl. Qed.

Lemma string_compare_refl (a : string) : String.compare a a = Eq.
Proof.
  induction a as [|c a IH]; simpl; [reflexivity|].
  rewrite ascii_compare_refl. exact IH.
Qed.

Lemma ascii_compare_trans (a b c : Ascii.ascii) :
  Ascii.compare a b = Lt -> Ascii.compare b c = Lt -> Ascii.compare a c = Lt.
Proof.
  unfold Ascii.compare. rewrite !N.compare_lt_iff. apply N.lt_trans.
Qed.

Lemma string_compare_trans (a : string) :
  forall b c, String.compare a b = Lt -> String.compare b c = Lt ->
              String.compare a c = Lt.
Proof.
  induction a as [|x a IH]; intros [|y b] [|z c]; simpl; try congruence.
  destruct (Ascii.compare x y) eqn:Hxy; try discriminate;
    destruct (Ascii.compare y z) eqn:Hyz; try discriminate; intros H1 H2.
  - apply Ascii.compare_eq_iff in Hxy, Hyz. subst y z.
    rewrite ascii_compare_refl. eapply IH; eassumption.
  - apply Ascii.compare_eq_iff in Hxy. subst y. rewrite Hyz. reflexivity.
  - apply Ascii.compare_eq_iff in Hyz. subst z. rewrite Hxy. reflexivity.
  - rewrite (ascii_compare_trans _ _ _ Hxy Hyz). reflexivity.
Qed.

#[export] Instance Z_key_laws : KeyLaws Z.
Proof.
  split; unfold key_cmp, Z_key.
  - intros a b. apply Z.compare_eq_iff.
  - intros a b. apply Z.compare_antisym.
  - intros a b c. rewrite !Z.compare_lt_iff. apply Z.lt_trans.
Qed.

#[export] Instance string_key_laws : KeyLaws string.
Proof.
  split; unfold key_cmp, string_key.
  - intros a b. split; [apply String.compare_eq_iff|].
    intros ->. apply string_compare_refl.
  - intros a b. apply String.compare_antisym.
  - intros a b c. apply string_compare_trans.
Qed.

#[export] Instance pair_key_laws {A B : Type} {cmpA : Key A} {cmpB : Key B}
  {lawsA : KeyLaws A} {lawsB : KeyLaws B} : KeyLaws (A * B).
Proof.
  split; unfold key_cmp, pair_key.
  - intros [a1 b1] [a2 b2]; simpl. split.
    + destruct (key_cmp a1 a2) eqn:Ha; try discriminate.
      intros Hb. apply key_cmp_eq in Ha, Hb. congruence.
    + intros Heq. inversion Heq; subst.
      rewrite (proj2 (key_cmp_eq a2 a2) eq_refl). apply key_cmp_eq. reflexivity.
  - intros [a1 b1] [a2 b2]; simpl.
    rewrite (key_cmp_antisym a1 a2), (key_cmp_antisym b1 b2).
    destruct (key_cmp a1 a2); reflexivity.
  - intros [a1 b1] [a2 b2] [a3 b3]; simpl.
    destruct (key_cmp a1 a2) eqn:H12; try discriminate;
      destruct (key_cmp a2 a3) eqn:H23; try discriminate; intros Hb12 Hb23.
    + apply key_cmp_eq in H12, H23. subst a2 a3.
      rewrite (proj2 (key_cmp_eq a1 a1) eq_refl).
      eapply key_cmp_trans; eassumption.
    + apply key_cmp_eq in H12. subst a2. rewrite H23. reflexivity.
    + apply key_cmp_eq in H23. subst a3. rewrite H12. reflexivity.
    + rewrite (key_cmp_trans _ _ _ H12 H23). reflexivity.
Qed.

(** ** Grouped sums *)

Section GroupBy.
Context {K : Type} `{KeyLaws K}.

Lemma key_cmp_refl (a : K) : key_cmp a a = Eq.
Proof. apply key_cmp_eq. reflexivity. Qed.

Lemma key_eqb_eq (a b : K) : key_eqb a b = true <-> a = b.
Proof.
  unfold key_eqb. rewrite <- key_cmp_eq.
  destruct (key_cmp a b); split; congruence.
Qed.

Lemma key_eqb_refl (a : K) : key_eqb a a = true.
Proof. apply key_eqb_eq. reflexivity. Qed.

Lemma key_eqb_neq (a b : K) : key_eqb a b = false <-> a <> b.
Proof.
  rewrite <- key_eqb_eq. destruct (key_eqb a b); split; congruence.
Qed.

Lemma key_gt_lt (a b : K) : key_cmp a b = Gt -> key_lt b a.
Proof.
  unfold key_lt. intros Hgt. rewrite (key_cmp_antisym a b), Hgt. reflexivity.
Qed.

Lemma key_lt_irrefl (a : K) : ~ key_lt a a.
Proof. unfold key_lt. rewrite key_cmp_refl. discriminate. Qed.

Lemma add_key_In (k k' : K) (s : list K) :
  In k' (add_key k s) <-> k' = k \/ In k' s.
Proof.
  induction s as [|k0 s IH]; simpl.
  - intuition auto.
  - destruct (key_cmp k k0) eqn:Hc; simpl.
    + apply key_cmp_eq in Hc. subst k0. intuition auto.
    + intuition auto.
    + rewrite IH. intuition auto.
Qed.

Lemma add_key_sorted (k : K) (s : list K) :
  StronglySorted key_lt s -> StronglySorted key_lt (add_key k s).
Proof.
  induction s as [|k0 s IH]; simpl; intros Hs.
  - constructor; constructor.
  - inversion Hs as [|? ? Hs' Hall]; subst.
    destruct (key_cmp k k0) eqn:Hc.
    + exact Hs.
    + constructor; [exact Hs|]. constructor; [exact Hc|].
      rewrite Forall_forall in *. intros x Hx.
      eapply key_cmp_trans; [exact Hc | apply Hall, Hx].
    + constructor; [apply IH, Hs'|].
      rewrite Forall_forall in *. intros x Hx.
      apply add_key_In in Hx. destruct Hx as [->|Hx].
      * apply key_gt_lt, Hc.
      * apply Hall, Hx.
Qed.

Lemma fold_add_key_spec (l : list K) :
  forall s, StronglySorted key_lt s ->
    StronglySorted key_lt (fold_left (fun s k => add_key k s) l s) /\
    forall k, In k (fold_left (fun s k => add_key k s) l s) <-> In k l \/ In k s.
Proof.
  induction l as [|x l IH]; intros s Hs; simpl.
  - split; [exact Hs | intuition auto].
  - destruct (IH (add_key x s) (add_key_sorted x s Hs)) as [Hsorted Hin].
    split; [exact Hsorted|].
    intros k. rewrite Hin, add_key_In. intuition auto.
Qed.

Lemma sorted_unique_spec (l : list K) :
  StronglySorted key_lt (sorted_unique l) /\
  forall k, In k (sorted_unique l) <-> In k l.
Proof.
  destruct (fold_add_key_spec l [] (SSorted_nil _)) as [Hs Hin].
  split; [exact Hs|].
  intros k. unfold sorted_unique. rewrite Hin. simpl. intuition auto.
Qed.

Lemma sorted_NoDup (s : list K) : StronglySorted key_lt s -> NoDup s.
Proof.
  induction 1 as [|k s Hs IH Hall]; constructor; [|exact IH].
  intros Hin. rewrite Forall_forall in Hall.
  apply (key_lt_irrefl k), Hall, Hin.
Qed.

Lemma accumulate_keys (k : K) (v : Q) (acc : list (K * Q)) :
  map fst (accumulate k v acc) = add_key k (map fst acc).
Proof.
  induction acc as [|[k0 t] acc IH]; simpl; [reflexivity|].
  destruct (key_cmp k k0); simpl; [reflexivity | reflexivity | now rewrite IH].
Qed.

Lemma groupby_keys_fold (key : SalesRecord -> K) (rows : list SalesRecord) :
  forall acc,
    map fst (fold_left (fun acc r => accumulate (key r) (sales r) acc) rows acc)
    = fold_left (fun s k => add_key k s) (map key rows) (map fst acc).
Proof.
  induction rows as [|r rows IH]; intros acc; simpl; [reflexivity|].
  rewrite IH, accumulate_keys. reflexivity.
Qed.

Lemma groupby_keys (key : SalesRecord -> K) (rows : list SalesRecord) :
  map fst (groupby_sum key rows) = sorted_unique (map key rows).
Proof. apply (groupby_keys_fold key rows []). Qed.

Lemma accumulate_sum (k : K) (v : Q) (acc : list (K * Q)) :
  Qsum (map snd (accumulate k v acc)) == Qsum (map snd acc) + v.
Proof.
  induction acc as [|[k0 t] acc IH]; simpl.
  - ring.
  - destruct (key_cmp k k0); simpl.
    + ring.
    + ring.
    + rewrite IH. ring.
Qed.

Lemma groupby_sum_fold (key : SalesRecord -> K) (rows : list SalesRecord) :
  forall acc,
    Qsum (map snd (fold_left (fun acc r => accumulate (key r) (sales r) acc) rows acc))
    == Qsum (map snd acc) + Qsum (map sales rows).
Proof.
  induction rows as [|r rows IH]; intros acc; simpl.
  - ring.
  - rewrite IH, accumulate_sum. ring.
Qed.

Lemma groupby_sum_conserved (key : SalesRecord -> K) (rows : list SalesRecord) :
  Qsum (map snd (groupby_sum key rows)) == Qsum (map sales rows).
Proof.
  unfold groupby_sum. rewrite groupby_sum_fold. simpl. ring.
Qed.

Lemma accumulate_total (k0 : K) (v : Q) (acc : list (K * Q)) (k : K) :
  group_total k (accumulate k0 v acc)
  == group_total k acc + (if key_eqb k0 k then v else 0).
Proof.
  unfold group_total.
  induction acc as [|[k1 t] acc IH]; simpl.
  - destruct (key_eqb k0 k); simpl; ring.
  - destruct (key_cmp k0 k1) eqn:Hc; simpl.
    + apply key_cmp_eq in Hc. subst k1.
      destruct (key_eqb k0 k); simpl; ring.
    + destruct (key_eqb k0 k), (key_eqb k1 k); simpl; ring.
    + destruct (key_eqb k1 k); simpl; rewrite IH; ring.
Qed.

Lemma groupby_total_fold (key : SalesRecord -> K) (k : K) (rows : list SalesRecord) :
  forall acc,
    group_total k (fold_left (fun acc r => accumulate (key r) (sales r) acc) rows acc)
    == group_total k acc + sales_of key k rows.
Proof.
  unfold sales_of.
  induction rows as [|r rows IH]; intros acc; simpl.
  - ring.
  - rewrite IH, accumulate_total.
    destruct (key_eqb (key r) k); simpl; ring.
Qed.

Lemma group_total_absent (k : K) (m : list (K * Q)) :
  ~ In k (map fst m) -> group_total k m = 0%Q.
Proof.
  unfold group_total.
  induction m as [|[k0 t] m IH]; simpl; intros Hnotin; [reflexivity|].
  destruct (key_eqb k0 k) eqn:He.
  - apply key_eqb_eq in He. subst k0. exfalso. apply Hnotin. now left.
  - apply IH. intros Hin. apply Hnotin. now right.
Qed.

Lemma group_total_entry (k : K) (t : Q) (m : list (K * Q)) :
  NoDup (map fst m) -> In (k, t) m -> group_total k m == t.
Proof.
  induction m as [|[k0 t0] m IH]; simpl; intros Hnd Hin; [contradiction|].
  inversion Hnd as [|? ? Hnotin Hnd']; subst.
  unfold group_total in *. simpl.
  destruct Hin as [Heq|Hin].
  - inversion Heq; subst. rewrite key_eqb_refl. simpl.
    fold (group_total k m). rewrite (group_total_absent k m Hnotin). ring.
  - destruct (key_eqb k0 k) eqn:He.
    + apply key_eqb_eq in He. subst k0. exfalso. apply Hnotin.
      change k with (fst (k, t)). now apply in_map.
    + apply IH; assumption.
Qed.

(** What [groupby(key)['sales'].sum()] returns: one row per key that occurs,
    in increasing key order, holding the sum of the sales of the rows with
    that key; the grand total is kept. *)
Lemma groupby_sum_spec (key : SalesRecord -> K) (rows : list SalesRecord) :
  StronglySorted key_lt (map fst (groupby_sum key rows)) /\
  NoDup (map fst (groupby_sum key rows)) /\
  (forall k, In k (map fst (groupby_sum key rows)) <-> In k (map key rows)) /\
  (forall k t, In (k, t) (groupby_sum key rows) -> t == sales_of key k rows) /\
  Qsum (map snd (groupby_sum key rows)) == Qsum (map sales rows).
Proof.
  destruct (sorted_unique_spec (map key rows)) as [Hsorted Hin].
  rewrite <- groupby_keys in Hsorted, Hin.
  assert (Hnd : NoDup (map fst (groupby_sum key rows))) by now apply sorted_NoDup.
  repeat split; try assumption; try apply Hin.
  - intros k t Hkt. rewrite <- (group_total_entry k t _ Hnd Hkt).
    unfold groupby_sum. rewrite groupby_total_fold.
    unfold group_total. simpl. ring.
  - apply groupby_sum_conserved.
Qed.

Lemma mem_In (k : K) (l : list K) : mem k l = true <-> In k l.
Proof.
  unfold mem. rewrite existsb_exists. split.
  - intros [x [Hin He]]. apply key_eqb_eq in He. now subst x.
  - intros Hin. exists k. split; [exact Hin | apply key_eqb_refl].
Qed.

Lemma lookup_Some_In {V : Type} (k : K) (v : V) (m : list (K * V)) :
  lookup k m = Some v -> In (k, v) m.
Proof.
  unfold lookup.
  destruct (find (fun e => key_eqb (fst e) k) m) as [[k0 v0]|] eqn:Hf;
    [|discriminate].
  simpl. intros Heq. inversion Heq; subst v0.
  apply find_some in Hf. destruct Hf as [Hin He].
  apply key_eqb_eq in He. simpl in He. now subst k0.
Qed.

Lemma lookup_None_absent {V : Type} (k : K) (m : list (K * V)) :
  lookup k m = None -> ~ In k (map fst m).
Proof.
  unfold lookup.
  destruct (find (fun e => key_eqb (fst e) k) m) as [e|] eqn:Hf; [discriminate|].
  intros _ Hin. apply in_map_iff in Hin. destruct Hin as [e [He Hin]].
  pose proof (find_none _ _ Hf e Hin) as Hne. simpl in Hne.
  rewrite He, key_eqb_refl in Hne. discriminate.
Qed.

Lemma sales_of_absent (key : SalesRecord -> K) (k : K) (rows : list SalesRecord) :
  ~ In k (map key rows) -> sales_of key k rows = 0%Q.
Proof.
  unfold sales_of.
  induction rows as [|r rows IH]; simpl; intros Hnotin; [reflexivity|].
  destruct (key_eqb (key r) k) eqn:He.
  - apply key_eqb_eq in He. exfalso. apply Hnotin. now left.
  - apply IH. intros Hin. apply Hnotin. now right.
Qed.

Lemma Qsum_map_ext {A : Type} (f g : A -> Q) (l : list A) :
  (forall a, In a l -> f a == g a) -> Qsum (map f l) == Qsum (map g l).
Proof.
  induction l as [|a l IH]; simpl; intros Hfg; [reflexivity|].
  rewrite (Hfg a (or_introl eq_refl)), IH; [reflexivity|].
  intros b Hb. apply Hfg. now right.
Qed.

Lemma Qsum_map_plus {A : Type} (f g : A -> Q) (l : list A) :
  Qsum (map (fun a => (f a + g a)%Q) l) == Qsum (map f l) + Qsum (map g l).
Proof.
  induction l as [|a l IH]; simpl; [ring|]. rewrite IH. ring.
Qed.

Lemma Qsum_map_zero {A : Type} (l : list A) : Qsum (map (fun _ => 0%Q) l) == 0.
Proof. induction l as [|a l IH]; simpl; [reflexivity|]. rewrite IH. ring. Qed.

Lemma Qsum_indicator (k0 : K) (v : Q) (l : list K) :
  NoDup l -> In k0 l ->
  Qsum (map (fun k => if key_eqb k0 k then v else 0%Q) l) == v.
Proof.
  induction l as [|k l IH]; simpl; intros Hnd Hin; [contradiction|].
  inversion Hnd as [|? ? Hnotin Hnd']; subst.
  destruct Hin as [->|Hin].
  - rewrite key_eqb_refl.
    rewrite (Qsum_map_ext _ (fun _ => 0%Q)); [rewrite Qsum_map_zero; ring|].
    intros a Ha. destruct (key_eqb k0 a) eqn:He; [|reflexivity].
    apply key_eqb_eq in He. subst a. contradiction.
  - destruct (key_eqb k0 k) eqn:He.
    + apply key_eqb_eq in He. subst k. contradiction.
    + rewrite (IH Hnd' Hin). ring.
Qed.

(** Summing the group sums over any duplicate-free list of keys that covers
    the keys of the rows gives the sum of the rows. *)
Lemma sales_of_sum (key : SalesRecord -> K) (keys : list K)
  (rows : list SalesRecord) :
  NoDup keys -> (forall r, In r rows -> In (key r) keys) ->
  Qsum (map (fun k => sales_of key k rows) keys) == Qsum (map sales rows).
Proof.
  intros Hnd. induction rows as [|r rows IH]; intros Hcover.
  - unfold sales_of. simpl. apply Qsum_map_zero.
  - simpl.
    rewrite (Qsum_map_ext _ (fun k => ((if key_eqb (key r) k then sales r else 0)
                                       + sales_of key k rows)%Q)).
    + rewrite Qsum_map_plus, Qsum_indicator, IH.
      * reflexivity.
      * intros r' Hr'. apply Hcover. now right.
      * exact Hnd.
      * apply Hcover. now left.
    + intros k _. unfold sales_of. simpl.
      destruct (key_eqb (key r) k); simpl; ring.
Qed.

End GroupBy.

(** ** Part 1: the daily series *)

Example to_datetime_epoch : to_datetime 1970 1 1 = 0.
Proof. reflexivity. Qed.

Example day_name_examples :
  day_name (to_datetime 1970 1 1) = "Thursday" /\
  day_name (to_datetime 2024 1 1) = "Monday" /\
  day_name (to_datetime 2024 1 2 + 13 * 3600 * 1000000000) = "Tuesday" /\
  day_name (to_datetime 1969 12 31) = "Wednesday" /\
  day_name (to_datetime 2000 2 29) = "Tuesday".
Proof. repeat split. Qed.

Lemma Z_key_eqb (a b : Z) : key_eqb a b = (a =? b).
Proof.
  unfold key_eqb, key_cmp, Z_key.
  destruct (Z.compare_spec a b) as [Heq|Hlt|Hgt].
  - subst. now rewrite Z.eqb_refl.
  - symmetry. apply Z.eqb_neq. lia.
  - symmetry. apply Z.eqb_neq. lia.
Qed.

(** ** Part 2 and part 3: totals per category and the heat map *)

Lemma category_sales_spec (sales_data : list SalesRecord) :
  StronglySorted key_lt (map fst (category_sales sales_data)) /\
  NoDup (map fst (category_sales sales_data)) /\
  (forall c, In c (map fst (category_sales sales_data))
             <-> In c (map category sales_data)) /\
  (forall c t, In (c, t) (category_sales sales_data) ->
               t == sales_of category c sales_data) /\
  Qsum (map snd (category_sales sales_data)) == Qsum (map sales sales_data).
Proof. apply (groupby_sum_spec category sales_data). Qed.

Lemma heatmap_data_spec (sales_data : list SalesRecord) :
  NoDup (map fst (heatmap_data sales_data)) /\
  (forall k, In k (map fst (heatmap_data sales_data))
             <-> In k (map (fun r => (day_of_week r, category r)) sales_data)) /\
  (forall k t, In (k, t) (heatmap_data sales_data) ->
               t == sales_of (fun r => (day_of_week r, category r)) k sales_data) /\
  Qsum (map snd (heatmap_data sales_data)) == Qsum (map sales sales_data).
Proof.
  destruct (groupby_sum_spec (fun r => (day_of_week r, category r)) sales_data)
    as (_ & Hnd & Hkeys & Htot & Hsum).
  repeat split; try assumption; apply Hkeys.
Qed.

Lemma lookup_combine_map {V : Type} (f : string -> V) (idx : list string)
  (l : string) :
  lookup l (combine idx (map f idx)) = if mem l idx then Some (f l) else None.
Proof.
  unfold lookup, mem.
  induction idx as [|i idx IH]; simpl; [reflexivity|].
  destruct (key_eqb i l) eqn:He; simpl.
  - apply key_eqb_eq in He. subst i. reflexivity.
  - exact IH.
Qed.

Lemma map_const_repeat {A B : Type} (b : B) (l : list A) :
  map (fun _ => b) l = repeat b (List.length l).
Proof. induction l; simpl; congruence. Qed.

Lemma combine_map_r {A B : Type} (f : A -> B) (l : list A) :
  combine l (map f l) = map (fun x => (x, f x)) l.
Proof. induction l; simpl; congruence. Qed.

Lemma heatmap_pivot_shape (sales_data : list SalesRecord) :
  heatmap_pivot sales_data
  = {| index := days_order;
       columns := heatmap_columns sales_data;
       values := map (fun d => map (pivot_cell sales_data d)
                                   (heatmap_columns sales_data))
                     days_order |}.
Proof.
  unfold heatmap_columns, heatmap_pivot, reindex, fillna, pivot.
  cbn [index columns values]. f_equal.
  apply map_ext. intros d. rewrite map_map, lookup_combine_map.
  unfold pivot_cell, pivot. cbn [index].
  destruct (mem d _).
  - rewrite map_map. reflexivity.
  - rewrite map_const_repeat. reflexivity.
Qed.

Lemma flat_map_enumerate {A B : Type} (F : nat -> A -> list B)
  (G : A -> list B) (l : list A) :
  forall a,
    (forall j c, nth_error l j = Some c -> F (a + j)%nat c = G c) ->
    flat_map (fun jc => F (fst jc) (snd jc)) (combine (seq a (List.length l)) l)
    = flat_map G l.
Proof.
  induction l as [|c l IH]; intros a HF; simpl; [reflexivity|].
  f_equal.
  - rewrite <- (HF 0%nat c eq_refl). f_equal. lia.
  - apply IH. intros j c' Hj. rewrite <- (HF (S j) c' Hj). f_equal. lia.
Qed.

Lemma melt_table (idx cols : list string) (g : string -> string -> option Q) :
  melt {| index := idx; columns := cols;
          values := map (fun d => map (g d) cols) idx |}
  = flat_map (fun c => map (fun d => {| cell_day_of_week := d;
                                        cell_category := c;
                                        cell_sales := g d c |}) idx) cols.
Proof.
  unfold melt. cbn [index columns values].
  rewrite combine_map_r.
  apply (flat_map_enumerate
           (fun j c => map (fun irow => {| cell_day_of_week := fst irow;
                                           cell_category := c;
                                           cell_sales := nth j (snd irow) None |})
                           (map (fun d => (d, map (g d) cols)) idx))).
  intros j c Hj. simpl. rewrite map_map. apply map_ext. intros d. simpl.
  f_equal. apply nth_error_nth. apply map_nth_error. exact Hj.
Qed.

Lemma flat_map_pairs (days cols : list string) (g : string -> string -> option Q) :
  flat_map (fun c => map (fun d => {| cell_day_of_week := d;
                                      cell_category := c;
                                      cell_sales := g d c |}) days) cols
  = map (fun k => {| cell_day_of_week := fst k;
                     cell_category := snd k;
                     cell_sales := g (fst k) (snd k) |})
        (flat_map (fun c => map (fun d => (d, c)) days) cols).
Proof.
  induction cols as [|c cols IH]; simpl; [reflexivity|].
  rewrite map_app, map_map, IH. reflexivity.
Qed.

(** The cells of the heat map, as they are laid out. *)
Lemma heatmap_source_cells (sales_data : list SalesRecord) :
  heatmap_source sales_data
  = map (cell_of sales_data) (grid (heatmap_columns sales_data)).
Proof.
  unfold heatmap_source. rewrite heatmap_pivot_shape, melt_table.
  apply flat_map_pairs.
Qed.

Lemma day_name_in_days_order (ts : Z) : In (day_name ts) days_order.
Proof.
  unfold day_name. apply nth_In.
  pose proof (Z.mod_pos_bound (ts / ns_per_day + 3) 7 eq_refl) as Hb.
  change (List.length days_order) with 7%nat. lia.
Qed.

Lemma days_order_NoDup : NoDup days_order.
Proof.
  unfold days_order.
  repeat (constructor; [simpl; intuition discriminate|]). constructor.
Qed.

Lemma grid_In (cols : list string) (d c : string) :
  In (d, c) (grid cols) <-> In d days_order /\ In c cols.
Proof.
  unfold grid. rewrite in_flat_map. split.
  - intros [c' [Hc Hin]]. apply in_map_iff in Hin.
    destruct Hin as [d' [Heq Hd]]. inversion Heq; subst. auto.
  - intros [Hd Hc]. exists c. split; [exact Hc|].
    apply in_map_iff. exists d. auto.
Qed.

Lemma grid_NoDup (cols : list string) : NoDup cols -> NoDup (grid cols).
Proof.
  unfold grid. generalize days_order_NoDup. generalize days_order as days.
  intros days Hdays.
  induction cols as [|c cols IH]; simpl; intros Hnd; [constructor|].
  inversion Hnd as [|? ? Hnotin Hnd']; subst.
  apply NoDup_app.
  - clear -Hdays. induction Hdays as [|d days Hd _ IHd]; simpl; constructor.
    + intros Hin. apply in_map_iff in Hin. destruct Hin as [d' [Heq Hin]].
      inversion Heq; subst. contradiction.
    + exact IHd.
  - apply IH, Hnd'.
  - intros [d c'] Hin Hin'. apply in_map_iff in Hin.
    destruct Hin as [d' [Heq _]]. inversion Heq; subst.
    apply in_flat_map in Hin'. destruct Hin' as [c'' [Hc Hin']].
    apply in_map_iff in Hin'. destruct Hin' as [d'' [Heq' _]].
    inversion Heq'; subst. contradiction.
Qed.


Lemma heatmap_keys (sales_data : list SalesRecord) (d c : string) :
  In (d, c) (map fst (heatmap_data sales_data))
  <-> exists r, In r sales_data /\ day_of_week r = d /\ category r = c.
Proof.
  destruct (heatmap_data_spec sales_data) as (_ & Hkeys & _).
  rewrite Hkeys, in_map_iff. split.
  - intros [r [Heq Hin]]. inversion Heq. eauto.
  - intros [r [Hin [Hd Hc]]]. exists r. subst. auto.
Qed.

Lemma heatmap_index_In (sales_data : list SalesRecord) (d : string) :
  mem d (index (pivot (heatmap_data sales_data))) = true
  <-> In d (map day_of_week sales_data).
Proof.
  rewrite mem_In. unfold pivot. cbn [index].
  rewrite (proj2 (sorted_unique_spec _)), !in_map_iff. split.
  - intros [[[d' c] t] [Heq Hin]]. simpl in Heq. subst d'.
    assert (Hk : In (d, c) (map fst (heatmap_data sales_data))).
    { apply in_map_iff. exists (d, c, t). auto. }
    apply heatmap_keys in Hk. destruct Hk as [r [Hr [Hd _]]]. eauto.
  - intros [r [Hd Hr]].
    assert (Hk : In (d, category r) (map fst (heatmap_data sales_data))).
    { apply heatmap_keys. eauto. }
    apply in_map_iff in Hk. destruct Hk as [e [He Hin]].
    exists e. rewrite He. auto.
Qed.

(** The columns of the heat map are the categories of the input, each once,
    in increasing order. *)
Lemma heatmap_columns_spec (sales_data : list SalesRecord) :
  StronglySorted key_lt (heatmap_columns sales_data) /\
  NoDup (heatmap_columns sales_data) /\
  forall c, In c (heatmap_columns sales_data) <-> In c (map category sales_data).
Proof.
  assert (Hcols : heatmap_columns sales_data
                  = sorted_unique (map (fun e => snd (fst e)) (heatmap_data sales_data)))
    by reflexivity.
  rewrite Hcols.
  destruct (sorted_unique_spec
              (map (fun e : string * string * Q => snd (fst e))
                   (heatmap_data sales_data))) as [Hsorted Hin].
  split; [exact Hsorted|]. split; [apply sorted_NoDup, Hsorted|].
  intros c. rewrite Hin, !in_map_iff. split.
  - intros [[[d c'] t] [Heq Hine]]. simpl in Heq. subst c'.
    assert (Hk : In (d, c) (map fst (heatmap_data sales_data))).
    { apply in_map_iff. exists (d, c, t). auto. }
    apply heatmap_keys in Hk. destruct Hk as [r [Hr [_ Hc]]]. eauto.
  - intros [r [Hc Hr]].
    assert (Hk : In (day_of_week r, c) (map fst (heatmap_data sales_data))).
    { apply heatmap_keys. eauto. }
    apply in_map_iff in Hk. destruct Hk as [e [He Hine]].
    exists e. rewrite He. auto.
Qed.

(** What a cell holds: nothing (NaN) when no row of the input falls on its
    weekday; otherwise the sum of the sales of its weekday and category,
    which is 0 when there is none. *)
Lemma pivot_cell_spec (sales_data : list SalesRecord) (d c : string) :
  (~ In d (map day_of_week sales_data) -> pivot_cell sales_data d c = None) /\
  (In d (map day_of_week sales_data) ->
   exists t, pivot_cell sales_data d c = Some t /\
             t == sales_of (fun r => (day_of_week r, category r)) (d, c) sales_data) /\
  (In d (map day_of_week sales_data) ->
   ~ (exists r, In r sales_data /\ day_of_week r = d /\ category r = c) ->
   pivot_cell sales_data d c = Some 0%Q).
Proof.
  unfold pivot_cell.
  pose proof (heatmap_index_In sales_data d) as Hidx.
  destruct (mem d (index (pivot (heatmap_data sales_data)))).
  - assert (Hd : In d (map day_of_week sales_data)) by now apply Hidx.
    split; [contradiction|].
    destruct (lookup (d, c) (heatmap_data sales_data)) as [t|] eqn:Hl; simpl.
    + apply lookup_Some_In in Hl. split.
      * intros _. exists t. split; [reflexivity|].
        apply (heatmap_data_spec sales_data), Hl.
      * intros _ Hno. exfalso. apply Hno. apply heatmap_keys.
        apply in_map_iff. exists (d, c, t). auto.
    + apply lookup_None_absent in Hl. split.
      * intros _. exists 0%Q. split; [reflexivity|].
        rewrite sales_of_absent; [reflexivity|].
        rewrite <- (proj1 (proj2 (heatmap_data_spec sales_data))). exact Hl.
      * reflexivity.
  - split; [reflexivity|].
    split; intros Hd; apply Hidx in Hd; discriminate.
Qed.


(** The cells that hold a number add up to the sales of the input. *)
Lemma heatmap_present_cells_sum (sales_data : list SalesRecord) :
  skipna_sum (map cell_sales (heatmap_source sales_data))
  == Qsum (map sales sales_data).
Proof.
  destruct (heatmap_columns_spec sales_data) as (_ & Hnd & Hcols).
  unfold skipna_sum. rewrite heatmap_source_cells, !map_map.
  rewrite (Qsum_map_ext _ (fun k => sales_of (fun r => (day_of_week r, category r))
                                             k sales_data)).
  - apply sales_of_sum; [apply grid_NoDup, Hnd|].
    intros r Hr. apply grid_In. split.
    + apply day_name_in_days_order.
    + apply Hcols. now apply in_map.
  - intros [d c] _. simpl.
    destruct (pivot_cell_spec sales_data d c) as (Hnone & Hsome & _).
    destruct (in_dec string_dec d (map day_of_week sales_data)) as [Hd|Hd].
    + destruct (Hsome Hd) as [t [-> Ht]]. exact Ht.
    + rewrite (Hnone Hd). rewrite sales_of_absent; [reflexivity|].
      intros Hin. apply Hd. apply in_map_iff in Hin.
      destruct Hin as [r [Heq Hr]]. inversion Heq. now apply in_map.
Qed.


(** C2, on a table whose rows all fall on a Monday: the six other weekdays
    get a cell for the category, but its value is missing (NaN), not 0;
    [fillna(0)] runs before [reindex] brings those rows in. *)
Theorem heatmap_absent_weekday_is_nan :
  heatmap_source monday_only
  = [ {| cell_day_of_week := "Monday"; cell_category := "A"; cell_sales := Some 100%Q |};
      {| cell_day_of_week := "Tuesday"; cell_category := "A"; cell_sales := None |};
      {| cell_day_of_week := "Wednesday"; cell_category := "A"; cell_sales := None |};
      {| cell_day_of_week := "Thursday"; cell_category := "A"; cell_sales := None |};
      {| cell_day_of_week := "Friday"; cell_category := "A"; cell_sales := None |};
      {| cell_day_of_week := "Saturday"; cell_category := "A"; cell_sales := None |};
      {| cell_day_of_week := "Sunday"; cell_category := "A"; cell_sales := None |} ].
Proof. vm_compute. reflexivity. Qed.

(** C4, on the same table: the daily series and the category totals add up
    to the 100 of the input, the heat map cells do not add up to a number. *)
Theorem heatmap_sum_is_nan :
  Qsum (map sales monday_only) == 100 /\
  Qsum (map snd (daily_sales monday_only)) == 100 /\
  Qsum (map snd (category_sales monday_only)) == 100 /\
  nan_sum (map cell_sales (heatmap_source monday_only)) = None.
Proof. repeat split; vm_compute; reflexivity. Qed.

(** ** The geographic table *)

Section ReprojectorFacts.
Context {C : Type} (transform : Q -> Q -> C * C).

Lemma set_columns_apply (geo_data : list GeoRecord) :
  set_columns geo_data (map fst (apply_transform transform geo_data))
                       (map snd (apply_transform transform geo_data))
  = map (project_row transform) geo_data.
Proof.
  unfold set_columns, apply_transform.
  induction geo_data as [|row geo IH]; simpl; [reflexivity|].
  f_equal. exact IH.
Qed.

Lemma reproject_empty : reproject transform [] = None.
Proof. reflexivity. Qed.

Lemma reproject_nonempty (geo_data : list GeoRecord) :
  geo_data <> [] ->
  reproject transform geo_data = Some (map (project_row transform) geo_data).
Proof.
  intros Hne. destruct geo_data as [|row geo]; [congruence|].
  rewrite <- set_columns_apply. reflexivity.
Qed.

(** On a table with at least one row the new table has the rows of the old
    one, in the same order, each with its four fields as they were and the
    two coordinates the transformer returns for it. *)
Lemma reproject_frame (geo_data : list GeoRecord) :
  geo_data <> [] ->
  exists points,
    reproject transform geo_data = Some points /\
    List.length points = List.length geo_data /\
    Forall2 (fun row p =>
               pp_region p = region row /\ pp_sales p = geo_sales row /\
               pp_latitude p = latitude row /\ pp_longitude p = longitude row /\
               (mercator_x p, mercator_y p)
               = transform (longitude row) (latitude row))
            geo_data points.
Proof.
  intros Hne. exists (map (project_row transform) geo_data).
  split; [apply reproject_nonempty, Hne|].
  split; [apply length_map|].
  clear Hne. induction geo_data as [|row geo IH]; simpl; constructor.
  - repeat split. simpl. destruct (transform (longitude row) (latitude row)).
    reflexivity.
  - exact IH.
Qed.

End ReprojectorFacts.

(** C7: every row of the geographic table has exactly one projected point,
    at the same position in a table of the same length, with its region,
    sales, latitude and longitude as they were; the two Mercator coordinates
    are the only additions. *)
Theorem reproject_preserves_rows {C : Type} (transform : Q -> Q -> C * C)
  (geo_data : list GeoRecord) (n : nat) (row : GeoRecord)
  (Hrow : nth_error geo_data n = Some row) :
  exists points p,
    reproject transform geo_data = Some points /\
    List.length points = List.length geo_data /\
    nth_error points n = Some p /\
    pp_region p = region row /\ pp_sales p = geo_sales row /\
    pp_latitude p = latitude row /\ pp_longitude p = longitude row /\
    (mercator_x p, mercator_y p) = transform (longitude row) (latitude row).
Proof.
  exists (map (project_row transform) geo_data), (project_row transform row).
  split.
  - apply reproject_nonempty. intros Hnil. subst geo_data.
    destruct n; discriminate Hrow.
  - split; [apply length_map|]. split; [apply map_nth_error, Hrow|].
    repeat split. simpl.
    destruct (transform (longitude row) (latitude row)). reflexivity.
Qed.

Lemma reproject_preserves_rows_witness :
  exists points p,
    reproject web_mercator [null_island; north_pole] = Some points /\
    List.length points = 2%nat /\
    nth_error points 1 = Some p /\
    pp_region p = "North Pole" /\ pp_sales p = 1%Q /\
    pp_latitude p = 90%Q /\ pp_longitude p = 0%Q /\
    (mercator_x p, mercator_y p) = web_mercator 0 90.
Proof.
  apply (reproject_preserves_rows web_mercator [null_island; north_pole] 1
           north_pole).
  reflexivity.
Defined.

(** C3, as the script has it: no latitude is clamped.  Each row's longitude
    and latitude, 90 and -90 included, go to the transformer as they are,
    and the two coordinates of the row are the pair the transformer returns
    for them. *)
Theorem reproject_latitude_unclamped {C : Type} (transform : Q -> Q -> C * C)
  (geo_data : list GeoRecord) (Hne : geo_data <> []) :
  exists points,
    reproject transform geo_data = Some points /\
    Forall2 (fun row p =>
               (mercator_x p, mercator_y p)
               = transform (longitude row) (latitude row))
            geo_data points.
Proof.
  exists (map (project_row transform) geo_data).
  split; [apply reproject_nonempty, Hne|].
  clear Hne. induction geo_data as [|row geo IH]; simpl; constructor.
  - simpl. destruct (transform (longitude row) (latitude row)). reflexivity.
  - exact IH.
Qed.

Lemma reproject_latitude_unclamped_witness :
  exists points,
    reproject echo [north_pole] = Some points /\
    Forall2 (fun row p =>
               (mercator_x p, mercator_y p) = echo (longitude row) (latitude row))
            [north_pole] points.
Proof.
  apply (reproject_latitude_unclamped echo [north_pole]). discriminate.
Defined.

(** C3 as stated fails at latitude 90: with a transformer that hands back
    what it is given, the ordinate of the row is 90, so the transformer was
    called with 90 and with no latitude short of the pole. *)
Lemma clamp_counterexample :
  option_map (map mercator_y) (reproject echo [north_pole]) = Some [90%Q] /\
  ~ (exists bound : Q,
       (bound < 90)%Q /\
       forall row points, reproject echo [row] = Some points ->
         Forall (fun p => (- bound <= mercator_y p /\ mercator_y p <= bound)%Q)
                points).
Proof.
  split; [reflexivity|].
  intros [bound [Hbound Hall]].
  specialize (Hall north_pole [project_row echo north_pole] eq_refl).
  inversion Hall as [|p ps [_ Hle] _]; subst.
  simpl in Hle. exact (Qlt_not_le _ _ Hbound Hle).
Qed.

Lemma web_mercator_defined (lon lat : Q) :
  is_defined (snd (web_mercator lon lat)) = true <-> (-90 < lat /\ lat < 90)%Q.
Proof.
  unfold web_mercator. simpl.
  destruct (Qle_bool 90 lat) eqn:Hhi; [|destruct (Qle_bool lat (-90)) eqn:Hlo]; simpl.
  - apply Qle_bool_iff in Hhi. split; [discriminate|].
    intros [_ Hlt]. exfalso. apply (Qlt_not_le _ _ Hlt Hhi).
  - apply Qle_bool_iff in Hlo. split; [discriminate|].
    intros [Hlt _]. exfalso. apply (Qlt_not_le _ _ Hlt Hlo).
  - split; [|reflexivity]. intros _. split; apply Qnot_le_lt; intros Hle;
      apply Qle_bool_iff in Hle; congruence.
Qed.

(** ** The projection formulas *)

Lemma radians_zero (q : Q) : q == 0 -> radians q = 0%R.
Proof.
  intros Hq. unfold radians. rewrite (Qeq_eqR _ _ Hq).
  unfold Q2R. simpl. lra.
Qed.

(** C6: the abscissa is R * lambda and the ordinate R * ln(tan(pi/4 + phi/2))
    with R = 6378137 and lambda, phi the longitude and latitude in radians;
    longitude 0 and latitude 0 give (0, 0); at a fixed latitude the abscissa
    increases with the longitude. *)
Theorem web_mercator_formulas (row : GeoRecord) :
  mercator_x (project_row web_mercator row)
  = Finite (6378137 * (Q2R (longitude row) * PI / 180)) /\
  ((-90 < latitude row /\ latitude row < 90)%Q ->
   mercator_y (project_row web_mercator row)
   = Finite (6378137 * ln (tan (PI / 4 + (Q2R (latitude row) * PI / 180) / 2)))) /\
  (longitude row == 0 -> latitude row == 0 ->
   mercator_x (project_row web_mercator row) = Finite 0 /\
   mercator_y (project_row web_mercator row) = Finite 0) /\
  (forall row', latitude row' = latitude row ->
     (longitude row < longitude row')%Q ->
     exists x x',
       mercator_x (project_row web_mercator row) = Finite x /\
       mercator_x (project_row web_mercator row') = Finite x' /\
       (x < x')%R).
Proof.
  split; [reflexivity|]. split; [|split].
  - intros Hrange. apply web_mercator_defined with (lon := longitude row) in Hrange.
    unfold project_row, mercator_y, web_mercator in *. simpl in *.
    destruct (Qle_bool 90 (latitude row)); [discriminate|].
    destruct (Qle_bool (latitude row) (-90)); [discriminate|]. reflexivity.
  - intros Hlon Hlat. split.
    + simpl. unfold mercator_forward_x. rewrite (radians_zero _ Hlon).
      f_equal. lra.
    + assert (Hrange : (-90 < latitude row /\ latitude row < 90)%Q).
      { rewrite Hlat. split; reflexivity. }
      apply web_mercator_defined with (lon := longitude row) in Hrange.
      unfold project_row, mercator_y, web_mercator in *. simpl in *.
      destruct (Qle_bool 90 (latitude row)); [discriminate|].
      destruct (Qle_bool (latitude row) (-90)); [discriminate|].
      unfold mercator_forward_y. rewrite (radians_zero _ Hlat).
      replace (PI / 4 + 0 / 2)%R with (PI / 4)%R by lra.
      rewrite tan_PI4, ln_1. f_equal. lra.
  - intros row' _ Hlt. simpl.
    exists (mercator_forward_x (longitude row)), (mercator_forward_x (longitude row')).
    split; [reflexivity|]. split; [reflexivity|].
    unfold mercator_forward_x, radians, earth_radius.
    apply Qlt_Rlt in Hlt. pose proof PI_RGT_0 as Hpi. nra.
Qed.

Lemma web_mercator_formulas_witness :
  mercator_x (project_row web_mercator null_island) = Finite 0 /\
  mercator_y (project_row web_mercator null_island) = Finite 0.
Proof.
  apply (proj1 (proj2 (proj2 (web_mercator_formulas null_island)))); reflexivity.
Defined.

(** ** More on the classifier *)

Lemma SFcompare_None (a b : float64) :
  SFcompare a b = None <-> a = S754_nan \/ b = S754_nan.
Proof.
  destruct a as [sa|sa| |sa ma ea], b as [sb|sb| |sb mb eb]; simpl;
    split; intros H; try discriminate; auto;
    destruct H as [H|H]; discriminate H.
Qed.

Lemma lex_compare_trans (e1 e2 e3 : Z) (m1 m2 m3 : positive) (c12 c23 : comparison) :
  match (e1 ?= e2)%Z with Eq => (m1 ?= m2)%positive | c => c end = c12 ->
  match (e2 ?= e3)%Z with Eq => (m2 ?= m3)%positive | c => c end = c23 ->
  c12 <> Gt -> c23 <> Gt ->
  match (e1 ?= e3)%Z with Eq => (m1 ?= m3)%positive | c => c end
  = match c12 with Eq => c23 | _ => Lt end.
Proof.
  destruct (Z.compare_spec e1 e2), (Z.compare_spec e2 e3),
    (Z.compare_spec e1 e3); try lia;
    destruct (Pos.compare_spec m1 m2), (Pos.compare_spec m2 m3),
      (Pos.compare_spec m1 m3); try lia;
    intros <- <- ? ?; try reflexivity; try congruence.
Qed.

Ltac fold_pos_compare :=
  repeat match goal with
         | |- context [PosDef.Pos.compare_cont Eq ?a ?b] =>
             change (PosDef.Pos.compare_cont Eq a b) with (Pos.compare a b)
         end.

Ltac split_compares :=
  repeat match goal with
         | |- context [(?a ?= ?b)%Z] => destruct (Z.compare_spec a b)
         | |- context [(?a ?= ?b)%positive] => destruct (Pos.compare_spec a b)
         end.

(** Comparison of binary64 values is transitive: from [a <= b] and [b <= c]
    the comparison of [a] with [c] follows. *)
Lemma SFcompare_trans (a b c : float64) (x y : comparison) :
  SFcompare a b = Some x -> SFcompare b c = Some y -> x <> Gt -> y <> Gt ->
  SFcompare a c = Some (match x with Eq => y | _ => Lt end).
Proof.
  destruct a as [sa|sa| |sa ma ea], b as [sb|sb| |sb mb eb],
    c as [sc|sc| |sc mc ec]; simpl; try discriminate;
    repeat match goal with s : bool |- _ => destruct s end;
    fold_pos_compare;
    try (intros Hab Hbc; inversion Hab; inversion Hbc; subst; simpl;
         congruence);
    split_compares; simpl;
    intros Hab Hbc; inversion Hab; inversion Hbc; subst; simpl;
    intros; try congruence; try lia.
Qed.

Lemma compare_None_nan (s c : float64) :
  c <> S754_nan -> SFcompare s c = None -> s = S754_nan.
Proof.
  intros Hc Hn. apply SFcompare_None in Hn. destruct Hn; [assumption|contradiction].
Qed.

Lemma categorize_sentiment_cases (s : float64) :
  (categorize_sentiment s = "Positive" <-> fgt s f0_7 = true) /\
  (categorize_sentiment s = "Neutral"
   <-> fle f0_3 s = true /\ fle s f0_7 = true) /\
  (categorize_sentiment s = "Negative" <-> flt s f0_3 = true \/ s = S754_nan).
Proof.
  pose proof (flt_0_3_not_fgt_0_7 s) as Hlow.
  assert (H7nan : SFcompare s f0_7 = None -> s = S754_nan)
    by (apply compare_None_nan; discriminate).
  assert (H3nan : SFcompare s f0_3 = None -> s = S754_nan)
    by (apply compare_None_nan; discriminate).
  assert (Hnan : s = S754_nan -> SFcompare s f0_7 = None)
    by (intros ->; reflexivity).
  unfold categorize_sentiment, fgt, fle, flt, SFltb, SFleb in *.
  rewrite (SFcompare_swap s f0_7), (SFcompare_swap s f0_3) in *.
  destruct (SFcompare s f0_7) as [[ | | ]|], (SFcompare s f0_3) as [[ | | ]|];
    simpl in *; repeat split; intros; try discriminate; try reflexivity;
    try tauto;
    try (specialize (Hlow eq_refl); discriminate);
    try match goal with H : _ /\ _ |- _ => destruct H; discriminate end;
    try match goal with
        | H : _ \/ _ |- _ => destruct H as [H|H]; [discriminate|];
                             specialize (Hnan H); discriminate
        end;
    try (right; auto).
Qed.

(** X1: the label tells the range of the score.  A record is "Positive"
    exactly when its score is above 0.7, "Neutral" exactly when it is from
    0.3 to 0.7, and "Negative" exactly when it is below 0.3 or is NaN. *)
Theorem categorize_sentiment_inversion (s : float64) :
  (categorize_sentiment s = "Positive" <-> fgt s f0_7 = true) /\
  (categorize_sentiment s = "Neutral"
   <-> fle f0_3 s = true /\ fle s f0_7 = true) /\
  (categorize_sentiment s = "Negative" <-> flt s f0_3 = true \/ s = S754_nan).
Proof. exact (categorize_sentiment_cases s). Qed.

Lemma fle_compare (a b : float64) :
  fle a b = true <-> exists x, SFcompare a b = Some x /\ x <> Gt.
Proof.
  unfold fle, SFleb. destruct (SFcompare a b) as [[ | | ]|]; split;
    try discriminate; try reflexivity.
  - exists Eq. split; [reflexivity | discriminate].
  - exists Lt. split; [reflexivity | discriminate].
  - intros [x [Hx Hne]]. inversion Hx; subst. congruence.
  - intros [x [Hx _]]. discriminate.
Qed.

Lemma flt_fle_trans (a b c : float64) :
  flt a b = true -> fle b c = true -> flt a c = true.
Proof.
  unfold flt, SFltb. intros Hab Hbc. apply fle_compare in Hbc.
  destruct Hbc as [y [Hy Hne]].
  destruct (SFcompare a b) as [[ | | ]|] eqn:Hx; try discriminate.
  rewrite (SFcompare_trans a b c Lt y Hx Hy); [reflexivity | discriminate | exact Hne].
Qed.

Lemma fle_trans (a b c : float64) :
  fle a b = true -> fle b c = true -> fle a c = true.
Proof.
  intros Hab Hbc. apply fle_compare in Hab, Hbc.
  destruct Hab as [x [Hx Hnx]], Hbc as [y [Hy Hny]].
  apply fle_compare. eexists. split.
  - apply (SFcompare_trans a b c x y); assumption.
  - destruct x; congruence.
Qed.

Lemma fgt_or_fle (s c : float64) :
  s <> S754_nan -> c <> S754_nan -> fgt s c = true \/ fle s c = true.
Proof.
  intros Hs Hc. unfold fgt, fle, SFltb, SFleb. rewrite (SFcompare_swap s c).
  destruct (SFcompare s c) as [[ | | ]|] eqn:Hcmp; simpl; auto.
  apply SFcompare_None in Hcmp. tauto.
Qed.

Lemma fle_not_nan (a b : float64) : fle a b = true -> b <> S754_nan.
Proof.
  intros Hab ->. apply fle_compare in Hab. destruct Hab as [x [Hx _]].
  destruct a; discriminate.
Qed.

(** X2: the classifier is monotone.  When one score is less than or equal to
    another, its label is not above the other's in the order Negative,
    Neutral, Positive. *)
Theorem categorize_sentiment_monotone (s1 s2 : float64)
  (Hle : fle s1 s2 = true) :
  (label_rank (categorize_sentiment s1)
   <= label_rank (categorize_sentiment s2))%nat.
Proof.
  destruct (categorize_sentiment_cases s1) as (Hpos1 & Hneu1 & _).
  destruct (categorize_sentiment_cases s2) as (Hpos2 & Hneu2 & _).
  destruct (categorize_sentiment_label s1) as [H1|[H1|[H1|[]]]]; symmetry in H1.
  - assert (H2 : categorize_sentiment s2 = "Positive").
    { apply Hpos2. apply Hpos1 in H1. unfold fgt in *.
      exact (flt_fle_trans _ _ _ H1 Hle). }
    rewrite H1, H2. apply le_n.
  - rewrite H1. apply Hneu1 in H1. destruct H1 as [Hlo _].
    assert (Hlo2 : fle f0_3 s2 = true) by exact (fle_trans _ _ _ Hlo Hle).
    destruct (fgt_or_fle s2 f0_7 (fle_not_nan _ _ Hle)) as [Hgt|Hhi];
      [discriminate| |].
    + apply Hpos2 in Hgt. rewrite Hgt. change (1 <= 2)%nat. lia.
    + assert (H2 : categorize_sentiment s2 = "Neutral") by (apply Hneu2; auto).
      rewrite H2. apply le_n.
  - rewrite H1. apply Nat.le_0_l.
Qed.

Lemma categorize_sentiment_monotone_witness :
  (label_rank (categorize_sentiment f0_29999)
   <= label_rank (categorize_sentiment f0_70001))%nat.
Proof. apply (categorize_sentiment_monotone f0_29999 f0_70001). reflexivity. Defined.

(** ** More on the histogram *)

Lemma bump_sum (v : string) (t : list (string * nat)) :
  list_sum (map snd (bump v t)) = S (list_sum (map snd t)).
Proof.
  induction t as [|[k c] t IH]; simpl; [reflexivity|].
  destruct (String.eqb k v); simpl; [reflexivity|]. rewrite IH. lia.
Qed.

Lemma fold_bump_sum (vs : list string) :
  forall t, list_sum (map snd (fold_left (fun t v => bump v t) vs t))
            = (list_sum (map snd t) + List.length vs)%nat.
Proof.
  induction vs as [|v vs IH]; intros t; simpl; [lia|].
  rewrite IH, bump_sum. lia.
Qed.

Lemma list_sum_perm (l l' : list nat) :
  Permutation l l' -> list_sum l = list_sum l'.
Proof. induction 1; simpl; lia. Qed.

Lemma insert_desc_sorted (e : string * nat) (t : list (string * nat)) :
  Sorted (fun a b => (snd b <= snd a)%nat) t ->
  Sorted (fun a b => (snd b <= snd a)%nat) (insert_desc e t).
Proof.
  induction t as [|h t IH]; simpl; intros Hs.
  - repeat constructor.
  - destruct (snd h <=? snd e)%nat eqn:Hle.
    + apply Nat.leb_le in Hle. constructor; [exact Hs|]. constructor. exact Hle.
    + apply Nat.leb_gt in Hle. inversion Hs as [|? ? Hs' Hhd]; subst.
      constructor; [apply IH, Hs'|].
      destruct t as [|h' t']; simpl.
      * constructor. lia.
      * destruct (snd h' <=? snd e)%nat; constructor.
        -- lia.
        -- inversion Hhd; assumption.
Qed.

Lemma sort_desc_sorted (t : list (string * nat)) :
  Sorted (fun a b => (snd b <= snd a)%nat) (sort_desc t).
Proof.
  induction t as [|e t IH]; simpl; [constructor|].
  apply insert_desc_sorted, IH.
Qed.

(** X3: the counts of the histogram add up to the number of feedback
    records, its rows come in order of decreasing count, it has at most three
    rows, and it is empty exactly when there is no feedback record. *)
Theorem sentiment_counts_histogram (customer_feedback : list FeedbackRecord) :
  list_sum (map snd (sentiment_counts customer_feedback))
  = List.length customer_feedback /\
  StronglySorted (fun a b => (snd b <= snd a)%nat)
                 (sentiment_counts customer_feedback) /\
  (List.length (sentiment_counts customer_feedback) <= 3)%nat /\
  (sentiment_counts customer_feedback = [] <-> customer_feedback = []).
Proof.
  assert (Hsum : list_sum (map snd (sentiment_counts customer_feedback))
                 = List.length customer_feedback).
  { unfold sentiment_counts, value_counts.
    rewrite (list_sum_perm _ _ (Permutation_map snd (sort_desc_perm _))).
    unfold tally. rewrite fold_bump_sum. unfold Sentiment.
    rewrite length_map. reflexivity. }
  split; [exact Hsum|]. split; [|split].
  - apply Sorted_StronglySorted.
    + intros a b c Hab Hbc. lia.
    + apply sort_desc_sorted.
  - destruct (value_counts_spec (Sentiment customer_feedback)) as [Hnd Hspec].
    fold (sentiment_counts customer_feedback) in Hnd, Hspec.
    rewrite <- (length_map fst).
    apply (NoDup_incl_length (l' := ["Positive"; "Neutral"; "Negative"]) Hnd).
    intros l Hl. apply in_map_iff in Hl. destruct Hl as [[k c] [<- Hin]].
    apply Hspec in Hin. destruct Hin as [Hc Hpos]. simpl.
    assert (Hocc : In k (Sentiment customer_feedback)).
    { apply (count_occ_In string_dec). lia. }
    unfold Sentiment in Hocc. apply in_map_iff in Hocc.
    destruct Hocc as [r [<- _]]. apply categorize_sentiment_label.
  - split.
    + intros Hnil. rewrite Hnil in Hsum. simpl in Hsum.
      destruct customer_feedback; [reflexivity | discriminate].
    + intros ->. reflexivity.
Qed.

(** ** More on grouped sums *)

Section GroupByOrder.
Context {K : Type} `{KeyLaws K}.

(** A duplicate-free increasing list is determined by its elements. *)
Lemma sorted_ext (l1 : list K) :
  forall l2, StronglySorted key_lt l1 -> StronglySorted key_lt l2 ->
             (forall k, In k l1 <-> In k l2) -> l1 = l2.
Proof.
  induction l1 as [|a l1 IH]; intros [|b l2] Hs1 Hs2 Hin.
  - reflexivity.
  - exfalso. apply (proj2 (Hin b)). now left.
  - exfalso. apply (proj1 (Hin a)). now left.
  - inversion Hs1 as [|? ? Hs1' Hall1]; subst.
    inversion Hs2 as [|? ? Hs2' Hall2]; subst.
    rewrite Forall_forall in Hall1, Hall2.
    assert (Hab : a = b).
    { destruct (proj1 (Hin a) (or_introl eq_refl)) as [Hba|Ha]; [now symmetry|].
      destruct (proj2 (Hin b) (or_introl eq_refl)) as [Hba|Hb]; [assumption|].
      exfalso. apply (key_lt_irrefl a).
      exact (key_cmp_trans _ _ _ (Hall1 _ Hb) (Hall2 _ Ha)). }
    subst b. f_equal. apply IH; try assumption.
    intros k. split; intros Hk.
    + destruct (proj1 (Hin k) (or_intror Hk)) as [Heq|Hk2]; [|exact Hk2].
      subst k. exfalso. apply (key_lt_irrefl a), Hall1, Hk.
    + destruct (proj2 (Hin k) (or_intror Hk)) as [Heq|Hk1]; [|exact Hk1].
      subst k. exfalso. apply (key_lt_irrefl a), Hall2, Hk.
Qed.

Lemma sorted_unique_perm (l l' : list K) :
  Permutation l l' -> sorted_unique l = sorted_unique l'.
Proof.
  intros Hp.
  destruct (sorted_unique_spec l) as [Hs Hin].
  destruct (sorted_unique_spec l') as [Hs' Hin'].
  apply sorted_ext; try assumption.
  intros k. rewrite Hin, Hin'. split; apply Permutation_in;
    [exact Hp | apply Permutation_sym, Hp].
Qed.

End GroupByOrder.

(** ** Part 2: totals per category *)

Lemma string_key_eqb (a b : string) : key_eqb a b = String.eqb a b.
Proof.
  destruct (String.eqb a b) eqn:He.
  - apply String.eqb_eq in He. subst b. apply key_eqb_refl.
  - apply key_eqb_neq. apply String.eqb_neq. exact He.
Qed.

(** X6: the bar chart and the heat map show the same categories in the same
    order: the category column of [category_sales] is the list of columns of
    the heat map. *)
Theorem category_sales_matches_heatmap_columns (sales_data : list SalesRecord) :
  map fst (category_sales sales_data) = heatmap_columns sales_data.
Proof.
  destruct (groupby_sum_spec category sales_data) as (Hsorted & _ & Hkeys & _).
  destruct (heatmap_columns_spec sales_data) as (Hsorted' & _ & Hcols).
  apply sorted_ext; try assumption.
  intros c. unfold category_sales. rewrite Hkeys, Hcols. reflexivity.
Qed.

(** ** Part 3: the heat map, in general *)

Lemma pair_key_eqb (a1 a2 b1 b2 : string) :
  key_eqb (a1, b1) (a2, b2) = key_eqb a1 a2 && key_eqb b1 b2.
Proof.
  unfold key_eqb. change (key_cmp (a1, b1) (a2, b2))
    with (match key_cmp a1 a2 with Eq => key_cmp b1 b2 | c => c end).
  destruct (key_cmp a1 a2); reflexivity.
Qed.









(** ** The checks at the start of the script *)

Lemma issubset_incl (required cols : list string) :
  issubset required cols = true <-> incl required cols.
Proof.
  unfold issubset, incl. rewrite forallb_forall. split.
  - intros Hall c Hc. specialize (Hall c Hc). apply existsb_exists in Hall.
    destruct Hall as [x [Hx He]]. apply String.eqb_eq in He. now subst x.
  - intros Hincl c Hc. apply existsb_exists. exists c.
    split; [apply Hincl, Hc | apply String.eqb_refl].
Qed.

(** X12: the start of the script goes through exactly when the three files
    are there and each table has its required columns; columns in any order
    and further columns are accepted. *)
Theorem startup_accepts (directory : string -> option (list string)) :
  startup directory = inr tt
  <-> exists sales_columns geo_columns feedback_columns,
        directory sales_file = Some sales_columns /\
        directory geo_file = Some geo_columns /\
        directory feedback_file = Some feedback_columns /\
        incl required_columns_sales sales_columns /\
        incl required_columns_geo geo_columns /\
        incl required_columns_feedback feedback_columns.
Proof.
  unfold startup, path_exists, read_csv.
  destruct (directory sales_file) as [cs|]; cbn [bind unless_raise];
    [|split; [discriminate | intros (? & ? & ? & H & _); discriminate]].
  destruct (directory geo_file) as [cg|]; cbn [bind unless_raise];
    [|split; [discriminate | intros (? & ? & ? & _ & H & _); discriminate]].
  destruct (directory feedback_file) as [cf|]; cbn [bind unless_raise];
    [|split; [discriminate | intros (? & ? & ? & _ & _ & H & _); discriminate]].
  split.
  - destruct (issubset required_columns_sales cs) eqn:Hs;
      cbn [bind unless_raise]; [|discriminate].
    destruct (issubset required_columns_geo cg) eqn:Hg;
      cbn [bind unless_raise]; [|discriminate].
    destruct (issubset required_columns_feedback cf) eqn:Hf;
      cbn [bind unless_raise]; [|discriminate].
    intros _. exists cs, cg, cf. repeat split; try reflexivity;
      apply issubset_incl; assumption.
  - intros (cs' & cg' & cf' & E1 & E2 & E3 & I1 & I2 & I3).
    inversion E1; inversion E2; inversion E3; subst.
    apply issubset_incl in I1, I2, I3. rewrite I1, I2, I3. reflexivity.
Qed.

Lemma issubset_false (required cols : list string) :
  issubset required cols = false -> ~ incl required cols.
Proof.
  intros Hf Hincl. apply issubset_incl in Hincl. congruence.
Qed.

(** X13: what an error at the start tells.  [FileNotFoundError] names a file
    that is not there, and the files checked before it are there;
    [ValueError] is raised only when all three files are there, it names a
    table that lacks a required column, and the tables checked before it
    have theirs.  So a missing file is reported before any missing column. *)
Theorem startup_error_meaning (directory : string -> option (list string))
  (e : startup_error) (Herr : startup directory = inl e) :
  match e with
  | FileNotFoundError file =>
      directory file = None /\
      (file = sales_file \/
       file = geo_file /\ directory sales_file <> None \/
       file = feedback_file /\ directory sales_file <> None
                            /\ directory geo_file <> None)
  | ValueError file =>
      exists sales_columns geo_columns feedback_columns,
        directory sales_file = Some sales_columns /\
        directory geo_file = Some geo_columns /\
        directory feedback_file = Some feedback_columns /\
        (file = sales_file /\ ~ incl required_columns_sales sales_columns \/
         file = geo_file /\ incl required_columns_sales sales_columns
                         /\ ~ incl required_columns_geo geo_columns \/
         file = feedback_file /\ incl required_columns_sales sales_columns
                              /\ incl required_columns_geo geo_columns
                              /\ ~ incl required_columns_feedback feedback_columns)
  end.
Proof.
  revert Herr. unfold startup, path_exists, read_csv.
  destruct (directory sales_file) as [cs|] eqn:Es; cbn [bind unless_raise];
    [|intros Herr; inversion Herr; subst; auto].
  destruct (directory geo_file) as [cg|] eqn:Eg; cbn [bind unless_raise];
    [|intros Herr; inversion Herr; subst; split; [assumption|];
      right; left; split; [reflexivity | congruence]].
  destruct (directory feedback_file) as [cf|] eqn:Ef; cbn [bind unless_raise];
    [|intros Herr; inversion Herr; subst; split; [assumption|];
      right; right; repeat split; congruence].
  destruct (issubset required_columns_sales cs) eqn:Hs; cbn [bind unless_raise].
  - destruct (issubset required_columns_geo cg) eqn:Hg; cbn [bind unless_raise].
    + destruct (issubset required_columns_feedback cf) eqn:Hf; cbn [bind unless_raise];
        [discriminate|].
      intros Herr. inversion Herr; subst. exists cs, cg, cf.
      repeat split. right. right.
      repeat split; try (apply issubset_incl; assumption).
      apply issubset_false, Hf.
    + intros Herr. inversion Herr; subst. exists cs, cg, cf.
      repeat split. right. left.
      repeat split; try (apply issubset_incl; assumption).
      apply issubset_false, Hg.
  - intros Herr. inversion Herr; subst. exists cs, cg, cf.
    repeat split. left. split; [reflexivity | apply issubset_false, Hs].
Qed.

Lemma startup_error_meaning_witness :
  sales_only geo_file = None /\
  (geo_file = sales_file \/
   geo_file = geo_file /\ sales_only sales_file <> None \/
   geo_file = feedback_file /\ sales_only sales_file <> None
                            /\ sales_only geo_file <> None).
Proof.
  apply (startup_error_meaning sales_only (FileNotFoundError geo_file)).
  reflexivity.
Defined.

Example startup_examples :
  startup complete_directory = inr tt /\
  startup incomplete_sales = inl (ValueError sales_file) /\
  startup sales_only = inl (FileNotFoundError geo_file) /\
  startup (fun _ => None) = inl (FileNotFoundError sales_file).
Proof. repeat split. Qed.

(** ** When the re-projection stops *)

(** X14: the re-projection stops with an error exactly when the geographic
    table has no row; for any other table it gives the table of the
    projected rows, one per row and in the order of the rows. *)
Theorem reproject_stops_iff_no_row {C : Type} (transform : Q -> Q -> C * C)
  (geo_data : list GeoRecord) :
  reproject transform geo_data
  = match geo_data with
    | [] => None
    | _ :: _ => Some (map (project_row transform) geo_data)
    end /\
  (reproject transform geo_data = None <-> geo_data = []).
Proof.
  assert (Hre : reproject transform geo_data
                = match geo_data with
                  | [] => None
                  | _ :: _ => Some (map (project_row transform) geo_data)
                  end).
  { destruct geo_data as [|row geo]; [reflexivity|].
    apply reproject_nonempty. discriminate. }
  split; [exact Hre|].
  rewrite Hre. destruct geo_data; split; congruence.
Qed.

(** ** The histogram in terms of the scores *)

Lemma count_occ_map_filter {A : Type} (f : A -> string) (l : list A) (v : string) :
  count_occ string_dec (map f l) v
  = List.length (filter (fun a => String.eqb (f a) v) l).
Proof.
  induction l as [|a l IH]; simpl; [reflexivity|].
  destruct (string_dec (f a) v) as [Heq|Hne].
  - rewrite Heq, String.eqb_refl. simpl. now rewrite IH.
  - apply String.eqb_neq in Hne. rewrite Hne. exact IH.
Qed.

Lemma label_test (s : float64) :
  String.eqb (categorize_sentiment s) "Positive" = fgt s f0_7 /\
  String.eqb (categorize_sentiment s) "Neutral"
  = negb (fgt s f0_7) && (fle f0_3 s && fle s f0_7) /\
  String.eqb (categorize_sentiment s) "Negative"
  = negb (fgt s f0_7) && negb (fle f0_3 s && fle s f0_7).
Proof.
  unfold categorize_sentiment.
  destruct (fgt s f0_7); [repeat split|].
  destruct (fle f0_3 s && fle s f0_7); repeat split.
Qed.

(** X15: the counts of the histogram in terms of the scores.  The row
    "Positive" counts the records whose score is above 0.7, the row "Neutral"
    those whose score is from 0.3 to 0.7, the row "Negative" all the others;
    a label has a row exactly when that number is not 0. *)
Theorem sentiment_counts_of_scores (customer_feedback : list FeedbackRecord) :
  let above := filter (fun r => fgt (sentiment_score r) f0_7) customer_feedback in
  let middle := filter (fun r => negb (fgt (sentiment_score r) f0_7)
                                 && (fle f0_3 (sentiment_score r)
                                     && fle (sentiment_score r) f0_7))
                       customer_feedback in
  let others := filter (fun r => negb (fgt (sentiment_score r) f0_7)
                                 && negb (fle f0_3 (sentiment_score r)
                                          && fle (sentiment_score r) f0_7))
                       customer_feedback in
  (forall c, In ("Positive", c) (sentiment_counts customer_feedback)
             <-> c = List.length above /\ (0 < c)%nat) /\
  (forall c, In ("Neutral", c) (sentiment_counts customer_feedback)
             <-> c = List.length middle /\ (0 < c)%nat) /\
  (forall c, In ("Negative", c) (sentiment_counts customer_feedback)
             <-> c = List.length others /\ (0 < c)%nat) /\
  (List.length above + List.length middle + List.length others
   = List.length customer_feedback)%nat.
Proof.
  intros above middle others.
  destruct (value_counts_spec (Sentiment customer_feedback)) as [_ Hspec].
  fold (sentiment_counts customer_feedback) in Hspec.
  assert (Hcount : forall l test,
            (forall r, String.eqb (categorize_sentiment (sentiment_score r)) l
                       = test r) ->
            count_occ string_dec (Sentiment customer_feedback) l
            = List.length (filter test customer_feedback)).
  { intros l test Htest. unfold Sentiment. rewrite count_occ_map_filter.
    f_equal. apply filter_ext. exact Htest. }
  split; [|split; [|split]].
  - intros c. rewrite Hspec, (Hcount "Positive" (fun r => fgt (sentiment_score r) f0_7)).
    + reflexivity.
    + intros r. apply (label_test (sentiment_score r)).
  - intros c. rewrite Hspec. unfold middle. rewrite <- (Hcount "Neutral").
    + reflexivity.
    + intros r. apply (label_test (sentiment_score r)).
  - intros c. rewrite Hspec. unfold others. rewrite <- (Hcount "Negative").
    + reflexivity.
    + intros r. apply (label_test (sentiment_score r)).
  - unfold above, middle, others. clear. induction customer_feedback as [|r l IH];
      simpl; [reflexivity|].
    destruct (fgt (sentiment_score r) f0_7); simpl; [lia|].
    destruct (fle f0_3 (sentiment_score r) && fle (sentiment_score r) f0_7);
      simpl; lia.
Qed.

(** ** Grouped sums in the arithmetic of the column *)

Lemma amounts_are_the_literals :
  is_double_of (2 # 10) f0_2 = true /\
  is_double_of (59115 # 100) f591_15 = true /\
  is_double_of (10224 # 100) f102_24 = true /\
  is_double_of (31743 # 100) f317_43 = true /\
  is_double_of (101082 # 100) f1010_82 = true /\
  Qeq_bool (float_value f30) 30 = true /\
  Qeq_bool (float_value f50) 50 = true /\
  Qeq_bool (float_value f100) 100 = true /\
  Qeq_bool (float_value f130) 130 = true /\
  Qeq_bool (float_value f150) 150 = true /\
  fadd f0_1 f0_2 = f0_30000000000000004.
Proof. repeat split; vm_compute; reflexivity. Qed.

Section GroupSumFacts.
Context {K : Type} `{KeyLaws K} {V S : Type} (init : S) (step : S -> V -> S).

Lemma lookup_absent {W : Type} (k : K) (m : list (K * W)) :
  ~ In k (map fst m) -> lookup k m = None.
Proof.
  unfold lookup. induction m as [|[k0 w] m IH]; simpl; intros Hnotin;
    [reflexivity|].
  destruct (key_eqb k0 k) eqn:He.
  - apply key_eqb_eq in He. subst k0. exfalso. apply Hnotin. now left.
  - apply IH. intros Hin. apply Hnotin. now right.
Qed.

Lemma lookup_entry {W : Type} (k : K) (w : W) (m : list (K * W)) :
  NoDup (map fst m) -> In (k, w) m -> lookup k m = Some w.
Proof.
  unfold lookup. induction m as [|[k0 w0] m IH]; simpl; intros Hnd Hin;
    [contradiction|].
  inversion Hnd as [|? ? Hnotin Hnd']; subst.
  destruct Hin as [Heq|Hin].
  - inversion Heq; subst. rewrite key_eqb_refl. reflexivity.
  - destruct (key_eqb k0 k) eqn:He.
    + apply key_eqb_eq in He. subst k0. exfalso. apply Hnotin.
      change k with (fst (k, w)). now apply in_map.
    + apply IH; assumption.
Qed.

Lemma below_head_absent (k k1 : K) (keys : list K) :
  StronglySorted key_lt (k1 :: keys) -> key_cmp k k1 = Lt -> ~ In k (k1 :: keys).
Proof.
  intros Hs Hlt [Heq|Hin].
  - subst k1. rewrite key_cmp_refl in Hlt. discriminate.
  - inversion Hs as [|? ? _ Hall]; subst. rewrite Forall_forall in Hall.
    apply (key_lt_irrefl k). exact (key_cmp_trans _ _ _ Hlt (Hall _ Hin)).
Qed.

Lemma accumulate_with_keys (k : K) (v : V) (acc : list (K * S)) :
  map fst (accumulate_with init step k v acc) = add_key k (map fst acc).
Proof.
  induction acc as [|[k0 s] acc IH]; simpl; [reflexivity|].
  destruct (key_cmp k k0); simpl; [reflexivity | reflexivity | now rewrite IH].
Qed.

Lemma group_states_keys_fold (key : SalesRow V -> K) (rows : list (SalesRow V)) :
  forall acc,
    map fst (fold_left (fun acc r => accumulate_with init step (key r)
                                       (row_sales r) acc) rows acc)
    = fold_left (fun s k => add_key k s) (map key rows) (map fst acc).
Proof.
  induction rows as [|r rows IH]; intros acc; simpl; [reflexivity|].
  rewrite IH, accumulate_with_keys. reflexivity.
Qed.

Lemma group_states_keys (key : SalesRow V -> K) (rows : list (SalesRow V)) :
  map fst (group_states init step key rows) = sorted_unique (map key rows).
Proof. apply (group_states_keys_fold key rows []). Qed.

(** One more row moves the accumulator of its own group and no other. *)
Lemma state_of_accumulate (k0 : K) (v : V) (acc : list (K * S)) (k : K) :
  StronglySorted key_lt (map fst acc) ->
  state_of init k (accumulate_with init step k0 v acc)
  = if key_eqb k0 k then step (state_of init k acc) v else state_of init k acc.
Proof.
  unfold state_of, lookup.
  induction acc as [|[k1 s1] acc IH]; simpl; intros Hs.
  - destruct (key_eqb k0 k); reflexivity.
  - destruct (key_cmp k0 k1) eqn:Hc; simpl.
    + apply key_cmp_eq in Hc. subst k1.
      destruct (key_eqb k0 k); reflexivity.
    + destruct (key_eqb k0 k) eqn:He; simpl; [|reflexivity].
      apply key_eqb_eq in He. subst k.
      pose proof (lookup_absent k0 ((k1, s1) :: acc)
                    (below_head_absent _ _ _ Hs Hc)) as Habs.
      unfold lookup in Habs. simpl in Habs. rewrite Habs. reflexivity.
    + destruct (key_eqb k1 k) eqn:He1; simpl.
      * apply key_eqb_eq in He1. subst k1.
        assert (He : key_eqb k0 k = false).
        { apply key_eqb_neq. intros ->. rewrite key_cmp_refl in Hc. discriminate. }
        rewrite He. reflexivity.
      * apply IH. inversion Hs; assumption.
Qed.

Lemma state_of_fold (key : SalesRow V -> K) (k : K) (rows : list (SalesRow V)) :
  forall acc, StronglySorted key_lt (map fst acc) ->
    state_of init k (fold_left (fun acc r => accumulate_with init step (key r)
                                               (row_sales r) acc) rows acc)
    = fold_left step (map row_sales (filter (fun r => key_eqb (key r) k) rows))
                (state_of init k acc).
Proof.
  induction rows as [|r rows IH]; intros acc Hs; simpl; [reflexivity|].
  rewrite IH.
  - rewrite (state_of_accumulate _ _ _ _ Hs).
    destruct (key_eqb (key r) k); reflexivity.
  - rewrite accumulate_with_keys. apply add_key_sorted, Hs.
Qed.

(** What the one pass computes: one group per key of the rows, in increasing
    key order, whose accumulator has been moved by the amounts of the rows of
    the group, all of them and in the order of the rows. *)
Lemma group_states_spec (key : SalesRow V -> K) (rows : list (SalesRow V)) :
  StronglySorted key_lt (map fst (group_states init step key rows)) /\
  NoDup (map fst (group_states init step key rows)) /\
  (forall k, In k (map fst (group_states init step key rows))
             <-> In k (map key rows)) /\
  (forall k s, In (k, s) (group_states init step key rows) ->
     s = fold_left step
           (map row_sales (filter (fun r => key_eqb (key r) k) rows)) init).
Proof.
  destruct (sorted_unique_spec (map key rows)) as [Hsorted Hin].
  rewrite <- group_states_keys in Hsorted, Hin.
  assert (Hnd : NoDup (map fst (group_states init step key rows)))
    by now apply sorted_NoDup.
  split; [exact Hsorted|]. split; [exact Hnd|]. split; [exact Hin|].
  intros k s Hks.
  pose proof (state_of_fold key k rows [] (SSorted_nil _)) as Hst.
  fold (group_states init step key rows) in Hst.
  unfold state_of at 1 in Hst. rewrite (lookup_entry k s _ Hnd Hks) in Hst.
  exact Hst.
Qed.

End GroupSumFacts.

Lemma groupby_sum_float64_spec {K : Type} `{KeyLaws K}
  (key : SalesRow float64 -> K) (rows : list (SalesRow float64)) :
  StronglySorted key_lt (map fst (groupby_sum_float64 key rows)) /\
  NoDup (map fst (groupby_sum_float64 key rows)) /\
  (forall k, In k (map fst (groupby_sum_float64 key rows)) <-> In k (map key rows)) /\
  (forall k t, In (k, t) (groupby_sum_float64 key rows) ->
     t = kahan_sum (map row_sales (filter (fun r => key_eqb (key r) k) rows))).
Proof.
  destruct (group_states_spec (fzero, fzero) kahan_step key rows)
    as (Hsorted & Hnd & Hkeys & Hstate).
  assert (Hfst : map fst (groupby_sum_float64 key rows)
                 = map fst (group_states (fzero, fzero) kahan_step key rows)).
  { unfold groupby_sum_float64. rewrite map_map. apply map_ext. reflexivity. }
  rewrite Hfst. split; [exact Hsorted|]. split; [exact Hnd|]. split; [exact Hkeys|].
  intros k t Hin. unfold groupby_sum_float64 in Hin. apply in_map_iff in Hin.
  destruct Hin as [[k' s] [Heq Hin]]. simpl in Heq. inversion Heq; subst.
  unfold kahan_sum. rewrite <- (Hstate k s Hin). reflexivity.
Qed.

(** ** Part 1: the daily series, as the column is summed *)

(** C5, as the script has it: [daily_sales] has exactly one point per
    distinct date of the input, in increasing date order; its total is the
    sum of the sales of all the records of that date in the order of the
    rows, as the column's arithmetic gives it: the compensated float64 sum,
    or the int64 sum modulo 2^64.  The empty table gives the empty series
    and the scenario gives [(2024-01-01, 150); (2024-01-02, 30)]. *)
Theorem daily_sales_column_sums :
  (forall rows : list (SalesRow float64),
     NoDup (map fst (daily_sales_float64 rows)) /\
     (forall d, In d (map fst (daily_sales_float64 rows))
                <-> In d (map row_date rows)) /\
     StronglySorted Z.lt (map fst (daily_sales_float64 rows)) /\
     (forall d t, In (d, t) (daily_sales_float64 rows) ->
        t = kahan_sum (map row_sales
                           (filter (fun r => row_date r =? d) rows)))) /\
  (forall rows : list (SalesRow Z),
     NoDup (map fst (daily_sales_int64 rows)) /\
     (forall d, In d (map fst (daily_sales_int64 rows))
                <-> In d (map row_date rows)) /\
     StronglySorted Z.lt (map fst (daily_sales_int64 rows)) /\
     (forall d t, In (d, t) (daily_sales_int64 rows) ->
        t = int64_sum (map row_sales
                           (filter (fun r => row_date r =? d) rows)))) /\
  daily_sales_float64 [] = [] /\
  daily_sales_int64 [] = [] /\
  daily_sales_float64 scenario_float64
  = [(to_datetime 2024 1 1, f150); (to_datetime 2024 1 2, f30)] /\
  daily_sales_int64 scenario_int64
  = [(to_datetime 2024 1 1, 150); (to_datetime 2024 1 2, 30)].
Proof.
  split; [|split; [|repeat split; vm_compute; reflexivity]].
  - intros rows.
    destruct (groupby_sum_float64_spec row_date rows)
      as (Hsorted & Hnd & Hkeys & Htot).
    fold (daily_sales_float64 rows) in Hsorted, Hnd, Hkeys, Htot.
    split; [exact Hnd|]. split; [exact Hkeys|]. split; [exact Hsorted|].
    intros d t Hin. rewrite (Htot d t Hin). do 2 f_equal.
    apply filter_ext. intros r. apply Z_key_eqb.
  - intros rows.
    destruct (group_states_spec 0 int64_step row_date rows)
      as (Hsorted & Hnd & Hkeys & Htot).
    fold (groupby_sum_int64 row_date rows) in Hsorted, Hnd, Hkeys, Htot.
    fold (daily_sales_int64 rows) in Hsorted, Hnd, Hkeys, Htot.
    split; [exact Hnd|]. split; [exact Hkeys|]. split; [exact Hsorted|].
    intros d t Hin. rewrite (Htot d t Hin). unfold int64_sum. do 2 f_equal.
    apply filter_ext. intros r. apply Z_key_eqb.
Qed.

(** C5 as stated fails on the sum: two sales of 0.1 and 0.2 on one date give
    the total 0.30000000000000004, which is not the sum of the two amounts;
    and two sales of 2^62 in an int64 column give -2^63. *)
Lemma daily_sum_counterexample :
  daily_sales_float64 two_tenths
  = [(to_datetime 2024 1 1, f0_30000000000000004)] /\
  ~ (float_value f0_30000000000000004 == float_value f0_1 + float_value f0_2) /\
  ~ (forall rows d t, In (d, t) (daily_sales_float64 rows) ->
       float_value t
       == Qsum (map (fun r => float_value (row_sales r))
                    (filter (fun r => row_date r =? d) rows))) /\
  daily_sales_int64 two_large
  = [(to_datetime 2024 1 1, -9223372036854775808)].
Proof.
  split; [vm_compute; reflexivity|]. split; [|split].
  - intros Heq. vm_compute in Heq. discriminate Heq.
  - intros Hall.
    specialize (Hall two_tenths (to_datetime 2024 1 1) f0_30000000000000004).
    assert (Hin : In (to_datetime 2024 1 1, f0_30000000000000004)
                     (daily_sales_float64 two_tenths))
      by (vm_compute; left; reflexivity).
    specialize (Hall Hin). vm_compute in Hall. discriminate Hall.
  - vm_compute. reflexivity.
Qed.

(** ** Part 2: the totals per category, as the column is summed *)

(** X5: [category_sales] has exactly one row per distinct category of the
    input (compared as exact, case-sensitive strings), in increasing order of
    the category names; its total is the sum of the sales of all the records
    of that category in the order of the rows, as the column's arithmetic
    gives it (compensated float64 sum, or int64 sum modulo 2^64); the empty
    table gives the empty table. *)
Theorem category_sales_column_sums :
  (forall rows : list (SalesRow float64),
     NoDup (map fst (category_sales_float64 rows)) /\
     (forall c, In c (map fst (category_sales_float64 rows))
                <-> In c (map row_category rows)) /\
     StronglySorted (fun a b => String.compare a b = Lt)
                    (map fst (category_sales_float64 rows)) /\
     (forall c t, In (c, t) (category_sales_float64 rows) ->
        t = kahan_sum (map row_sales
                           (filter (fun r => String.eqb (row_category r) c) rows)))) /\
  (forall rows : list (SalesRow Z),
     NoDup (map fst (category_sales_int64 rows)) /\
     (forall c, In c (map fst (category_sales_int64 rows))
                <-> In c (map row_category rows)) /\
     StronglySorted (fun a b => String.compare a b = Lt)
                    (map fst (category_sales_int64 rows)) /\
     (forall c t, In (c, t) (category_sales_int64 rows) ->
        t = int64_sum (map row_sales
                           (filter (fun r => String.eqb (row_category r) c) rows)))) /\
  category_sales_float64 [] = [] /\
  category_sales_int64 [] = [] /\
  category_sales_float64 scenario_float64 = [("A", f130); ("B", f50)] /\
  category_sales_int64 scenario_int64 = [("A", 130); ("B", 50)].
Proof.
  split; [|split; [|repeat split; vm_compute; reflexivity]].
  - intros rows.
    destruct (groupby_sum_float64_spec row_category rows)
      as (Hsorted & Hnd & Hkeys & Htot).
    fold (category_sales_float64 rows) in Hsorted, Hnd, Hkeys, Htot.
    split; [exact Hnd|]. split; [exact Hkeys|]. split; [exact Hsorted|].
    intros c t Hin. rewrite (Htot c t Hin). do 2 f_equal.
    apply filter_ext. intros r. apply string_key_eqb.
  - intros rows.
    destruct (group_states_spec 0 int64_step row_category rows)
      as (Hsorted & Hnd & Hkeys & Htot).
    fold (groupby_sum_int64 row_category rows) in Hsorted, Hnd, Hkeys, Htot.
    fold (category_sales_int64 rows) in Hsorted, Hnd, Hkeys, Htot.
    split; [exact Hnd|]. split; [exact Hkeys|]. split; [exact Hsorted|].
    intros c t Hin. rewrite (Htot c t Hin). unfold int64_sum. do 2 f_equal.
    apply filter_ext. intros r. apply string_key_eqb.
Qed.

(** ** The order of the rows *)

Lemma wrap64_add_l (u v : Z) : wrap64 (wrap64 u + v) = wrap64 (u + v).
Proof.
  unfold wrap64. f_equal.
  replace ((u + 9223372036854775808) mod 18446744073709551616
           - 9223372036854775808 + v + 9223372036854775808)
    with ((u + 9223372036854775808) mod 18446744073709551616 + v) by lia.
  rewrite Z.add_mod_idemp_l by discriminate. f_equal. lia.
Qed.

Lemma int64_step_swap (a x y : Z) :
  int64_step (int64_step a x) y = int64_step (int64_step a y) x.
Proof.
  unfold int64_step. rewrite !wrap64_add_l. f_equal. lia.
Qed.

Lemma group_fold_perm {V S : Type} (step : S -> V -> S)
  (test : SalesRow V -> bool) (rows rows' : list (SalesRow V)) :
  (forall a x y, step (step a x) y = step (step a y) x) ->
  Permutation rows rows' ->
  forall a, fold_left step (map row_sales (filter test rows)) a
            = fold_left step (map row_sales (filter test rows')) a.
Proof.
  intros Hswap. induction 1 as [|r l l' _ IH|r1 r2 l|l1 l2 l3 _ IH1 _ IH2];
    intros a; simpl.
  - reflexivity.
  - destruct (test r); simpl; apply IH.
  - destruct (test r1), (test r2); simpl; try reflexivity.
    rewrite Hswap. reflexivity.
  - rewrite IH1. apply IH2.
Qed.

Lemma same_keys_same_states {K S : Type} (F F' : K -> S) (m : list (K * S)) :
  forall m', map fst m = map fst m' ->
    (forall k s, In (k, s) m -> s = F k) ->
    (forall k s, In (k, s) m' -> s = F' k) ->
    (forall k, F k = F' k) -> m = m'.
Proof.
  induction m as [|[k s] m IH]; intros [|[k' s'] m'] Hkeys HF HF' Heq;
    simpl in Hkeys; try discriminate; [reflexivity|].
  inversion Hkeys; subst k'. f_equal.
  - f_equal. rewrite (HF k s (or_introl eq_refl)), (HF' k s' (or_introl eq_refl)).
    apply Heq.
  - apply IH; try assumption.
    + intros k0 s0 Hin. apply HF. now right.
    + intros k0 s0 Hin. apply HF'. now right.
Qed.

Lemma group_keys_perm {K : Type} `{KeyLaws K} {V S : Type} (init : S)
  (step : S -> V -> S) (key : SalesRow V -> K) (rows rows' : list (SalesRow V)) :
  Permutation rows rows' ->
  map fst (group_states init step key rows)
  = map fst (group_states init step key rows').
Proof.
  intros Hp. rewrite !group_states_keys.
  apply sorted_unique_perm, Permutation_map, Hp.
Qed.

Lemma groupby_sum_int64_perm {K : Type} `{KeyLaws K} (key : SalesRow Z -> K)
  (rows rows' : list (SalesRow Z)) :
  Permutation rows rows' ->
  groupby_sum_int64 key rows = groupby_sum_int64 key rows'.
Proof.
  intros Hp. unfold groupby_sum_int64.
  apply (same_keys_same_states
           (fun k => fold_left int64_step
                       (map row_sales (filter (fun r => key_eqb (key r) k) rows)) 0)
           (fun k => fold_left int64_step
                       (map row_sales (filter (fun r => key_eqb (key r) k) rows')) 0)).
  - apply group_keys_perm, Hp.
  - apply (group_states_spec 0 int64_step key rows).
  - apply (group_states_spec 0 int64_step key rows').
  - intros k. apply group_fold_perm; [apply int64_step_swap | exact Hp].
Qed.

Lemma groupby_sum_float64_keys_perm {K : Type} `{KeyLaws K}
  (key : SalesRow float64 -> K) (rows rows' : list (SalesRow float64)) :
  Permutation rows rows' ->
  map fst (groupby_sum_float64 key rows) = map fst (groupby_sum_float64 key rows').
Proof.
  intros Hp. unfold groupby_sum_float64. rewrite !map_map.
  change (map (fun x : K * (float64 * float64) => fst (fst x, fst (snd x))))
    with (map (fun x : K * (float64 * float64) => fst x)).
  apply (group_keys_perm (fzero, fzero) kahan_step key), Hp.
Qed.

(** X4: what the order of the rows of the sales table changes.  After any
    reordering the daily series and the category totals have the same keys
    in the same order; on an int64 column they are the same tables; on a
    float64 column a total can change in its last place: 591.15, 102.24 and
    317.43 on one date give 1010.8199999999999, and 1010.82 in the order
    317.43, 591.15, 102.24. *)
Theorem grouping_and_row_order :
  (forall rows rows' : list (SalesRow float64), Permutation rows rows' ->
     map fst (daily_sales_float64 rows) = map fst (daily_sales_float64 rows') /\
     map fst (category_sales_float64 rows)
     = map fst (category_sales_float64 rows')) /\
  (forall rows rows' : list (SalesRow Z), Permutation rows rows' ->
     daily_sales_int64 rows = daily_sales_int64 rows' /\
     category_sales_int64 rows = category_sales_int64 rows') /\
  Permutation three_sales three_sales_reordered /\
  daily_sales_float64 three_sales
  = [(to_datetime 2024 1 1, f1010_8199999999999)] /\
  daily_sales_float64 three_sales_reordered
  = [(to_datetime 2024 1 1, f1010_82)].
Proof.
  split; [|split; [|split; [|split]]].
  - intros rows rows' Hp. split; apply groupby_sum_float64_keys_perm, Hp.
  - intros rows rows' Hp. split; apply groupby_sum_int64_perm, Hp.
  - unfold three_sales, three_sales_reordered.
    eapply perm_trans; [apply perm_skip, perm_swap | apply perm_swap].
  - vm_compute. reflexivity.
  - vm_compute. reflexivity.
Qed.

Lemma grouping_and_row_order_witness :
  map fst (daily_sales_float64 three_sales)
  = map fst (daily_sales_float64 three_sales_reordered) /\
  map fst (category_sales_float64 three_sales)
  = map fst (category_sales_float64 three_sales_reordered).
Proof.
  apply (proj1 grouping_and_row_order three_sales three_sales_reordered).
  unfold three_sales, three_sales_reordered.
  eapply perm_trans; [apply perm_skip, perm_swap | apply perm_swap].
Defined.

(** ** The colour mapper *)

Example heatmap_full_week_example :
  nan_sum (map cell_sales (heatmap_source full_week)) = Some 28%Q /\
  mapper full_week = Some {| low := Some 1%Q; high := Some 7%Q |} /\
  mapper monday_only = Some {| low := None; high := None |} /\
  mapper [] = None.
Proof. repeat split; vm_compute; reflexivity. Qed.

Section Reduce.
Context (pick : Q -> Q -> Q) (below : Q -> Q -> Prop).
Context (pick_one : forall x y, pick x y = x \/ pick x y = y).
Context (pick_l : forall x y, below (pick x y) x).
Context (pick_r : forall x y, below (pick x y) y).
Context (below_trans : forall x y z, below x y -> below y z -> below x z).




End Reduce.





